(** * The model store of ember-data: factory resolution, metadata caches,
      record instantiation and the lifecycle guards

    Shallow embedding of
    [packages/store/addon/-private/system/ds-model-store.ts].

    The store is a mutable JavaScript object whose methods read and write
    per-store caches, allocate fresh objects and may throw.  The embedding
    threads an explicit [World] (object heap, store fields, environment
    registry, event trace) through a state-and-exception monad [M]; object
    identity is the heap location. *)

From Stdlib Require Import Ascii String.
From stdpp Require Import base gmap strings list fin_maps.

Open Scope string_scope.

(** ** JavaScript values and heap objects *)

Definition loc := nat.

Inductive value :=
| VUndefined
| VNull
| VBool (b : bool)
| VNum (n : Z)
| VStr (s : string)
| VRef (l : loc)
| VStore.                      (* [this], the store itself *)

#[global] Instance value_eq_dec : EqDecision value.
Proof. solve_decision. Defined.

(** Truthiness as used by [!x], [x ? a : b] and [x || y]. *)
Definition truthy (v : value) : bool :=
  match v with
  | VUndefined | VNull => false
  | VBool b => b
  | VNum n => negb (n =? 0)%Z
  | VStr s => negb (String.eqb s "")
  | VRef _ | VStore => true
  end.

(** [v === undefined] *)
Definition is_undefined (v : value) : bool :=
  match v with VUndefined => true | _ => false end.

(** [a || b] *)
Definition js_or (a b : value) : value := if truthy a then a else b.

(** A JavaScript object used as a string-keyed map: [o[k]] is [undefined]
    for a key that was never written. *)
Definition jsIndex (o : gmap string value) (k : string) : value :=
  default VUndefined (o !! k).

Inductive object :=
| OPlain (props : gmap string value)            (* own string-keyed properties *)
| OMap (entries : list (string * value))        (* a [Map], in insertion order *)
| OShim (modelName : string)                    (* [new ShimModelClass(store, modelName)] *)
| OSchemaService                                (* [new DSModelSchemaDefinitionService(store)] *)
| ORecord (factory : loc) (props : gmap string value) (owner : value).

Record StableRecordIdentifier := { type : string; id : option string }.

Inductive error :=
| AssertionError (message : string)   (* [assert] of @ember/debug *)
| EmberError (message : string)       (* [new EmberError(message)] *)
| TypeError (message : string)        (* member access on null/undefined, call of a non-function *)
| ThrownString (s : string)           (* [throw '...'] *)
| DanglingReference (l : loc).        (* cannot arise on a well-formed heap *)

Inductive event :=
| Deprecation (message id until : string)
| FactoryLookup (normalizedModelName : string)
| Created (factory record : loc)
| Subscribed (hub : value) (identifier : StableRecordIdentifier) (record : loc).

Definition is_deprecation (e : event) : bool :=
  match e with Deprecation _ _ _ => true | _ => false end.

(** ** The world: heap, store fields, environment, trace *)

Record World := mkWorld {
  heap : list object;
  (* fields of the store object *)
  shouldAssertMethodCallsOnDestroyedStore : value;
  isDestroying : bool;
  isDestroyed : bool;
  owner : value;                                   (* what [getOwner(this)] answers *)
  _modelFactoryCache : gmap string loc;
  _relationshipsDefCache : gmap string value;
  _attributesDefCache : gmap string value;
  _schemaDefinitionService : value;
  (* the environment *)
  registry : gmap string loc;                      (* factories registered with the owner *)
  trace : list event
}.

Definition set_heap (h : list object) (w : World) : World :=
  mkWorld h (shouldAssertMethodCallsOnDestroyedStore w) (isDestroying w)
    (isDestroyed w) (owner w) (_modelFactoryCache w) (_relationshipsDefCache w)
    (_attributesDefCache w) (_schemaDefinitionService w) (registry w) (trace w).

Definition set_modelFactoryCache (c : gmap string loc) (w : World) : World :=
  mkWorld (heap w) (shouldAssertMethodCallsOnDestroyedStore w) (isDestroying w)
    (isDestroyed w) (owner w) c (_relationshipsDefCache w)
    (_attributesDefCache w) (_schemaDefinitionService w) (registry w) (trace w).

Definition set_relationshipsDefCache (c : gmap string value) (w : World) : World :=
  mkWorld (heap w) (shouldAssertMethodCallsOnDestroyedStore w) (isDestroying w)
    (isDestroyed w) (owner w) (_modelFactoryCache w) c
    (_attributesDefCache w) (_schemaDefinitionService w) (registry w) (trace w).

Definition set_attributesDefCache (c : gmap string value) (w : World) : World :=
  mkWorld (heap w) (shouldAssertMethodCallsOnDestroyedStore w) (isDestroying w)
    (isDestroyed w) (owner w) (_modelFactoryCache w) (_relationshipsDefCache w)
    c (_schemaDefinitionService w) (registry w) (trace w).

Definition set_schemaDefinitionService (s : value) (w : World) : World :=
  mkWorld (heap w) (shouldAssertMethodCallsOnDestroyedStore w) (isDestroying w)
    (isDestroyed w) (owner w) (_modelFactoryCache w) (_relationshipsDefCache w)
    (_attributesDefCache w) s (registry w) (trace w).

Definition set_trace (t : list event) (w : World) : World :=
  mkWorld (heap w) (shouldAssertMethodCallsOnDestroyedStore w) (isDestroying w)
    (isDestroyed w) (owner w) (_modelFactoryCache w) (_relationshipsDefCache w)
    (_attributesDefCache w) (_schemaDefinitionService w) (registry w) t.


(** Appending events to the trace is the only effect of logging. *)
Definition emit (es : list event) (w : World) : World :=
  set_trace (trace w ++ es) w.

(** ** The state-and-exception monad *)

Inductive Result (A : Type) :=
| Ok (a : A)
| Throw (e : error).
Arguments Ok {A} a.
Arguments Throw {A} e.

Definition M (A : Type) : Type := World → Result A * World.

#[global] Instance M_ret : MRet M := λ A a w, (Ok a, w).
#[global] Instance M_bind : MBind M := λ A B f m w,
  match m w with
  | (Ok a, w') => f a w'
  | (Throw e, w') => (Throw e, w')
  end.

Definition throw {A} (e : error) : M A := λ w, (Throw e, w).
Definition getWorld : M World := λ w, (Ok w, w).
Definition modify (f : World → World) : M unit := λ w, (Ok tt, f w).
Definition log (e : event) : M unit := modify (emit [e]).

(** [Object.create(null)], [new C(...)]: a fresh location at the end of the heap. *)
Definition alloc (o : object) : M loc := λ w,
  (Ok (length (heap w)), set_heap (heap w ++ [o]) w).

(** Reading a member, [o.k] or [get(o, 'k')], off the heap.  The members of
    a [ShimModelClass] instance are defined in [model/shim-model-class.ts],
    outside the modelled file; they are taken as the parameter [shimGet].
    A member read this way is plain data: it answers a value, or throws,
    without running store code.  The one member of a stand-in read by the
    modelled file that runs store code, [relationshipsByName], is read with
    [getRelationshipsByName] below. *)
Definition readMember (shimGet : string → string → Result value)
    (h : list object) (v : value) (k : string) : Result value :=
  match v with
  | VUndefined | VNull =>
      Throw (TypeError ("Cannot read property '" +:+ k +:+ "' of undefined or null"))
  | VRef l =>
      match h !! l with
      | Some (OPlain p) => Ok (jsIndex p k)
      | Some (ORecord _ p _) => Ok (jsIndex p k)
      | Some (OShim n) => shimGet n k
      | Some (OMap _) | Some OSchemaService => Ok VUndefined
      | None => Throw (DanglingReference l)
      end
  | VBool _ | VNum _ | VStr _ | VStore => Ok VUndefined
  end.

Arguments readMember : simpl never.

Definition getMemberWith (shimGet : string → string → Result value)
    (v : value) (k : string) : M value := λ w,
  (readMember shimGet (heap w) v k, w).

(** [o[k] = v] on a heap object that carries own properties. *)
Definition setProperty (l : loc) (k : string) (v : value) : M unit := λ w,
  match heap w !! l with
  | Some (OPlain p) => (Ok tt, set_heap (<[l := OPlain (<[k := v]> p)]> (heap w)) w)
  | Some (ORecord f p o) => (Ok tt, set_heap (<[l := ORecord f (<[k := v]> p) o]> (heap w)) w)
  | Some _ => (Ok tt, w)
  | None => (Throw (DanglingReference l), w)
  end.

Fixpoint forEachEntry (callback : value → string → M unit)
    (entries : list (string * value)) : M unit :=
  match entries with
  | [] => mret tt
  | (name, meta) :: rest => callback meta name ;; forEachEntry callback rest
  end.

(** [m.forEach((value, key) => ...)] on a value expected to be a [Map]. *)
Definition mapForEach (m : value) (callback : value → string → M unit) : M unit :=
  match m with
  | VRef l =>
      w ← getWorld;
      match heap w !! l with
      | Some (OMap entries) => forEachEntry callback entries
      | Some _ => throw (TypeError "forEach is not a function")
      | None => throw (DanglingReference l)
      end
  | VUndefined | VNull => throw (TypeError "Cannot read property 'forEach' of undefined or null")
  | _ => throw (TypeError "forEach is not a function")
  end.

(** [m.get(key)] on a value expected to be a [Map]: the first entry under
    [key], [undefined] when there is none. *)
Fixpoint entriesGet (entries : list (string * value)) (key : string) : value :=
  match entries with
  | [] => VUndefined
  | (k, v) :: rest => if String.eqb k key then v else entriesGet rest key
  end.

Definition readMapGet (h : list object) (m : value) (key : string) : Result value :=
  match m with
  | VRef l =>
      match h !! l with
      | Some (OMap entries) => Ok (entriesGet entries key)
      | Some _ => Throw (TypeError "get is not a function")
      | None => Throw (DanglingReference l)
      end
  | VUndefined | VNull => Throw (TypeError "Cannot read property 'get' of undefined or null")
  | _ => Throw (TypeError "get is not a function")
  end.

Definition mapGet (m : value) (key : string) : M value := λ w,
  (readMapGet (heap w) m key, w).

(** Whether a value is a stand-in, an instance of [ShimModelClass]. *)
Definition isStandIn (h : list object) (v : value) : bool :=
  match v with
  | VRef l => match h !! l with Some (OShim _) => true | _ => false end
  | _ => false
  end.

(** A new [Map] holding the own properties of an object; empty when the
    value is null, undefined or not an object with own properties. *)
Definition mapFromHash (hash : value) : M value := λ w,
  let entries :=
    match hash with
    | VRef l => match heap w !! l with
                | Some (OPlain props) => map_to_list props
                | _ => []
                end
    | _ => []
    end in
  (Ok (VRef (length (heap w))), set_heap (heap w ++ [OMap entries]) w).

(** ** Constructor arguments: an object literal with an owner slot *)

Record CreateOptions := mkOptions {
  options : gmap string value;     (* own string-keyed properties *)
  optionsOwner : value             (* the slot [setOwner]/[getOwner] use *)
}.

(** [assign(target, source)]: every own key of [source] overwrites [target]. *)
Definition assign (target : CreateOptions) (source : gmap string value) : CreateOptions :=
  mkOptions (source ∪ options target) (optionsOwner target).

Definition setOwner (o : CreateOptions) (ownerValue : value) : CreateOptions :=
  mkOptions (options o) ownerValue.

(** [delete o.k] *)
Definition deleteProperty (o : CreateOptions) (k : string) : CreateOptions :=
  mkOptions (delete k (options o)) (optionsOwner o).

(** Modelled from the spec: [new ShimModelClass(store, modelName)] of
    [model/shim-model-class.ts] is outside the modelled file.  Per the spec
    (4.1) a minimal synthetic stand-in object is constructed: a new object
    that remembers the model name.  The store it is constructed with is
    the one store of the world: a member of the stand-in that runs store
    code runs on the world it is read in. *)
Definition newShimModelClass (modelName : string) : M loc :=
  alloc (OShim modelName).

(** [factory.create(createOptions)]: a fresh record carrying the arguments. *)
Definition factoryCreate (factory : loc) (o : CreateOptions) : M loc :=
  record ← alloc (ORecord factory (options o) (optionsOwner o));
  log (Created factory record) ;;
  mret record.

(** Modelled from the spec: [notificationManager.subscribe(identifier,
    callback)] of [record-notification-manager.ts] is outside the modelled
    file.  Per the spec (4.4) it registers one subscription for the
    identifier; the callback closes over the record just created. *)
Definition subscribe (hub : value) (identifier : StableRecordIdentifier)
    (record : loc) : M unit :=
  log (Subscribed hub identifier record).

(** ** The lifecycle guards *)

Definition destroyedStoreMessage (method : string) : string :=
  "Attempted to call store." +:+ method +:+
  "(), but the store instance has already been destroyed.".



(** ** A sample application

    A first-class model [person] (one attribute, one relationship), a
    first-class model [tag] that declares nothing, and a registered class
    [widget] that is not a model. *)
Module Sample.

Definition lowercaseChar (c : ascii) : ascii :=
  let n := nat_of_ascii c in
  if ((65 <=? n) && (n <=? 90))%nat then ascii_of_nat (n + 32) else c.

(** A normalizer that lowercases, as in the spec's scenario. *)
Fixpoint lowercase (s : string) : string :=
  match s with
  | EmptyString => EmptyString
  | String c rest => String (lowercaseChar c) (lowercase rest)
  end.

Definition nonEmpty (s : string) : bool := negb (String.eqb s "").

Definition shimMembers : string → string → Result value := λ _ _, Ok VUndefined.

Definition internalModels : World → StableRecordIdentifier → value := λ _ _, VRef 3.

(** A schema provider that answers every relationship query with the
    object at location 8 and every attribute query with null. *)
Definition providerAttributes : value → string → M value := λ _ _, mret VNull.
Definition providerRelationships : value → string → M value := λ _ _, mret (VRef 8).

Definition objects : list object :=
  [ OPlain {[ "class" := VRef 1 ]};                                   (* 0: factory of person *)
    OPlain (<["isModel" := VBool true]>
            (<["attributes" := VRef 2]>
             (<["relationshipsByName" := VRef 4]>
              {[ "relationshipsObject" := VRef 8 ]})));               (* 1: class Person *)
    OMap [("name", VRef 5)];                                          (* 2 *)
    OPlain {[ "currentState" := VStr "root.empty" ]};                 (* 3: an internal model *)
    OMap [("pets", VRef 9)];                                          (* 4 *)
    OPlain {[ "type" := VStr "string" ]};                             (* 5 *)
    OPlain {[ "class" := VRef 7 ]};                                   (* 6: factory of widget *)
    OPlain ∅;                                                         (* 7: class Widget *)
    OPlain {[ "pets" := VRef 9 ]};                                    (* 8 *)
    OPlain (<["kind" := VStr "hasMany"]> {[ "type" := VStr "pet" ]}); (* 9 *)
    OPlain {[ "class" := VRef 11 ]};                                  (* 10: factory of tag *)
    OPlain (<["isModel" := VBool true]>
            (<["attributes" := VRef 12]>
             {[ "relationshipsByName" := VRef 12 ]}));                (* 11: class Tag *)
    OMap [] ].                                                        (* 12 *)

Definition factories : gmap string loc :=
  <["person" := 0]> (<["widget" := 6]> {[ "tag" := 10 ]}).

(** An active store with empty caches. *)
Definition world : World :=
  mkWorld objects VUndefined false false (VRef 3) ∅ ∅ ∅ VUndefined factories [].


Definition destroyedStrict : World :=
  mkWorld objects (VBool true) true true (VRef 3) ∅ ∅ ∅ VUndefined factories [].

(** A store being torn down (destroying, not yet destroyed) with the
    strict flag set and the factory of [person] already cached. *)
Definition destroying : World :=
  mkWorld objects (VBool true) true false (VRef 3) {[ "person" := 0 ]} ∅ ∅
    VUndefined factories [].

(** A schema provider for which every type exists. *)
Definition providerDoesTypeExist : value → string → M value :=
  λ _ _, mret (VBool true).

(** A schema provider for which no type has relationships. *)
Definition providerWithoutRelationships : value → string → M value :=
  λ _ _, mret VNull.

End Sample.

Section Store.

(** Build flags. *)
Variable DEBUG : bool.
Variable CUSTOM_MODEL_CLASS : bool.

(** Collaborators outside the modelled file. *)
Variable normalizeModelName : string → string.
Variable isPresent : string → bool.
Variable shimGet : string → string → Result value.
Variable _internalModelForResource : World → StableRecordIdentifier → value.
Variable service_attributesDefinitionFor : value → string → M value.
Variable service_relationshipsDefinitionFor : value → string → M value.

Definition getMember := getMemberWith shimGet.

(** [assert] and [deprecate] of the framework act in debug builds only;
    [deprecate] warns and returns. *)
Definition assert (message : string) (test : bool) : M unit :=
  if DEBUG && negb test then throw (AssertionError message) else mret tt.

Definition deprecate (message : string) (test : bool) (id until : string) : M unit :=
  if DEBUG && negb test then log (Deprecation message id until) else mret tt.

Definition assertDestroyingStore (method : string) : M unit :=
  store ← getWorld;
  if negb (truthy (shouldAssertMethodCallsOnDestroyedStore store)) then
    deprecate (destroyedStoreMessage method)
      (negb (isDestroying store || isDestroyed store))
      "ember-data:method-calls-on-destroyed-store" "3.8"
  else
    assert (destroyedStoreMessage method)
      (negb (isDestroying store || isDestroyed store)).

Definition assertDestroyedStoreOnly (method : string) : M unit :=
  store ← getWorld;
  if negb (truthy (shouldAssertMethodCallsOnDestroyedStore store)) then
    deprecate (destroyedStoreMessage method)
      (negb (isDestroyed store))
      "ember-data:method-calls-on-destroyed-store" "3.8"
  else
    assert (destroyedStoreMessage method)
      (negb (isDestroyed store)).

(** [if (DEBUG) { guard(this, method) }] *)
Definition whenDebug (guard : M unit) : M unit :=
  if DEBUG then guard else mret tt.

(** ** Factory resolution *)

(** The environment's factory lookup: every call is visible in the trace. *)
Definition lookupFactory (normalizedModelName : string) : M (option loc) :=
  log (FactoryLookup normalizedModelName) ;;
  w ← getWorld;
  mret (registry w !! normalizedModelName).

(** Modelled from the spec: [getModelFactory(store, cache, normalizedModelName)]
    of [schema-definition-service.ts] is outside the modelled file.  Per
    the spec (4.1): a store-scoped cache keyed by the normalized name; on
    a miss the environment is asked for a factory; when none exists
    nothing is cached and the answer is null; otherwise the handle is
    cached; on a hit the cached handle is returned without a lookup. *)
Definition getModelFactory (normalizedModelName : string) : M (option loc) :=
  w ← getWorld;
  match _modelFactoryCache w !! normalizedModelName with
  | Some factory => mret (Some factory)
  | None =>
      found ← lookupFactory normalizedModelName;
      match found with
      | None => mret None
      | Some factory =>
          modify (λ w, set_modelFactoryCache
                         (<[normalizedModelName := factory]> (_modelFactoryCache w)) w) ;;
          mret (Some factory)
      end
  end.

(** The model name is a string here, so the second assertion of the
    source ([typeof modelName === 'string']) always passes. *)
Definition _modelFactoryFor (modelName : string) : M loc :=
  whenDebug (assertDestroyedStoreOnly "_modelFactoryFor") ;;
  assert "You need to pass a model name to the store's _modelFactoryFor method"
    (isPresent modelName) ;;
  let normalizedModelName := normalizeModelName modelName in
  factory ← getModelFactory normalizedModelName;
  match factory with
  | None => throw (EmberError ("No model was found for '" +:+ normalizedModelName +:+ "'"))
  | Some factory => mret factory
  end.

Definition modelFor (modelName : string) : M value :=
  whenDebug (assertDestroyedStoreOnly "modelFor") ;;
  assert "You need to pass a model name to the store's modelFor method"
    (isPresent modelName) ;;
  maybeFactory ← _modelFactoryFor modelName;
  class ← getMember (VRef maybeFactory) "class";
  let klass := if truthy class then class else VRef maybeFactory in
  isModel ← getMember klass "isModel";
  if negb (truthy isModel) then
    shim ← newShimModelClass modelName;
    mret (VRef shim)
  else mret klass.

(** ** The schema definition service *)

Definition getSchemaDefinitionService : M value :=
  if CUSTOM_MODEL_CLASS then
    w ← getWorld;
    if negb (truthy (_schemaDefinitionService w)) then
      service ← alloc OSchemaService;
      modify (set_schemaDefinitionService (VRef service)) ;;
      mret (VRef service)
    else mret (_schemaDefinitionService w)
  else throw (ThrownString
    "schema service is only available when custom model class feature flag is on").

(** ** Per-type metadata *)

Definition _attributesDefinitionFor (modelName : string) : M value :=
  if CUSTOM_MODEL_CLASS then
    service ← getSchemaDefinitionService;
    service_attributesDefinitionFor service modelName
  else
    w ← getWorld;
    let attributes := jsIndex (_attributesDefCache w) modelName in
    if is_undefined attributes then
      modelClass ← modelFor modelName;
      attributeMap ← getMember modelClass "attributes";
      attributes ← alloc (OPlain ∅);
      mapForEach attributeMap (λ meta name, setProperty attributes name meta) ;;
      modify (λ w, set_attributesDefCache
                     (<[modelName := VRef attributes]> (_attributesDefCache w)) w) ;;
      mret (VRef attributes)
    else mret attributes.

Definition _relationshipsDefinitionFor (modelName : string) : M value :=
  if CUSTOM_MODEL_CLASS then
    service ← getSchemaDefinitionService;
    service_relationshipsDefinitionFor service modelName
  else
    w ← getWorld;
    let relationships := jsIndex (_relationshipsDefCache w) modelName in
    if is_undefined relationships then
      modelClass ← modelFor modelName;
      relationshipsObject ← getMember modelClass "relationshipsObject";
      let relationships := js_or relationshipsObject VNull in
      modify (λ w, set_relationshipsDefCache
                     (<[modelName := relationships]> (_relationshipsDefCache w)) w) ;;
      mret relationships
    else mret relationships.

(** The [relationshipsByName] getter of a stand-in,
    [model/shim-model-class.ts], outside the modelled file.  A stand-in is
    constructed with the store ([new ShimModelClass(this, modelName)]), and
    this getter answers from the store, so it is a store computation: it
    may read and change the world. *)
Variable shim_relationshipsByName : string → M value.

(** [get(modelClass, 'relationshipsByName')]: the getter of a stand-in, a
    plain member read of anything else. *)
Definition getRelationshipsByName (modelClass : value) : M value := λ w,
  match modelClass with
  | VRef l =>
      match heap w !! l with
      | Some (OShim modelName) => shim_relationshipsByName modelName w
      | _ => getMember modelClass "relationshipsByName" w
      end
  | _ => getMember modelClass "relationshipsByName" w
  end.

Definition _relationshipMetaFor (modelName : string) (id : option string)
    (key : string) : M value :=
  if CUSTOM_MODEL_CLASS then
    relationships ← _relationshipsDefinitionFor modelName;
    getMember relationships key
  else
    modelClass ← modelFor modelName;
    relationshipsByName ← getRelationshipsByName modelClass;
    mapGet relationshipsByName key.

(** ** Record instantiation *)

(** The third argument of the source, [recordDataFor], is not used by the
    body and is left out. *)
Definition instantiateRecord (identifier : StableRecordIdentifier)
    (createRecordArgs : gmap string value) (notificationManager : value) : M loc :=
  let modelName := type identifier in
  w ← getWorld;
  let internalModel := _internalModelForResource w identifier in
  currentState ← getMember internalModel "currentState";
  let createOptions :=
    mkOptions (<["store" := VStore]>
               (<["_internalModel" := internalModel]>
                (<["currentState" := currentState]>
                 (<["container" := VNull]> ∅)))) VUndefined in
  let createOptions := assign createOptions createRecordArgs in
  let createOptions := setOwner createOptions (owner w) in
  let createOptions := deleteProperty createOptions "container" in
  factory ← _modelFactoryFor modelName;
  record ← factoryCreate factory createOptions;
  subscribe notificationManager identifier record ;;
  mret record.

(** ** Probing for a model *)

(** The schema service's [doesTypeExist], outside the modelled file. *)
Variable service_doesTypeExist : value → string → M value.

(** The legacy branch repeats the two assertions made on entry;
    [factory !== null] is the answer. *)
Definition _hasModelFor (modelName : string) : M value :=
  whenDebug (assertDestroyingStore "_hasModelFor") ;;
  assert "You need to pass a model name to the store's hasModelFor method"
    (isPresent modelName) ;;
  if CUSTOM_MODEL_CLASS then
    service ← getSchemaDefinitionService;
    service_doesTypeExist service modelName
  else
    assert "You need to pass a model name to the store's hasModelFor method"
      (isPresent modelName) ;;
    let normalizedModelName := normalizeModelName modelName in
    factory ← getModelFactory normalizedModelName;
    mret (VBool (match factory with Some _ => true | None => false end)).

(** ** What a guarded call does to the world *)

(** The destroyed-only guard fails exactly in a debug build with the
    strict flag set on a destroyed store, and warns exactly in a debug
    build without the strict flag on a destroyed store. *)
Definition guardFails (w : World) : bool :=
  DEBUG && truthy (shouldAssertMethodCallsOnDestroyedStore w) && isDestroyed w.

Definition guardWarnings (method : string) (w : World) : list event :=
  if DEBUG && negb (truthy (shouldAssertMethodCallsOnDestroyedStore w)) && isDestroyed w
  then [Deprecation (destroyedStoreMessage method)
          "ember-data:method-calls-on-destroyed-store" "3.8"]
  else [].

(** The world after a successful factory resolution: the handle is in the
    cache under the normalized name, and the trace has grown. *)
Definition resolved (normalizedModelName : string) (factory : loc)
    (es : list event) (w : World) : World :=
  set_modelFactoryCache (<[normalizedModelName := factory]> (_modelFactoryCache w))
    (emit es w).

(** The destroying-or-destroyed guard, likewise. *)
Definition probeFails (w : World) : bool :=
  DEBUG && truthy (shouldAssertMethodCallsOnDestroyedStore w)
  && (isDestroying w || isDestroyed w).

Definition probeWarnings (method : string) (w : World) : list event :=
  if DEBUG && negb (truthy (shouldAssertMethodCallsOnDestroyedStore w))
     && (isDestroying w || isDestroyed w)
  then [Deprecation (destroyedStoreMessage method)
          "ember-data:method-calls-on-destroyed-store" "3.8"]
  else [].

(** Events of factory resolution: warnings and environment lookups. *)
Definition is_resolution (e : event) : bool :=
  match e with
  | Deprecation _ _ _ | FactoryLookup _ => true
  | Created _ _ | Subscribed _ _ _ => false
  end.

(** The own properties of an object filled by
    [entries.forEach((meta, name) => (o[name] = meta))] from empty. *)
Definition objectOfEntries (entries : list (string * value)) : gmap string value :=
  foldl (λ props e, <[e.1 := e.2]> props) ∅ entries.

(** ** Reasoning about monadic code *)

Ltac munfold :=
  unfold mbind, mret, M_bind, M_ret, throw, getWorld, modify, log in *.

Ltac minv H := inversion H; subst; clear H.


Lemma emit_nil (w : World) : emit [] w = w.
Proof. destruct w. unfold emit, set_trace. simpl. by rewrite app_nil_r. Qed.

Lemma emit_emit (es1 es2 : list event) (w : World) :
  emit es2 (emit es1 w) = emit (es1 ++ es2) w.
Proof. unfold emit, set_trace. simpl. by rewrite app_assoc. Qed.

Lemma guardWarnings_deprecations (method : string) (w : World) :
  Forall (λ e, is_deprecation e = true) (guardWarnings method w).
Proof.
  unfold guardWarnings. case (_ && _); repeat constructor.
Qed.

Lemma whenDebug_destroyedOnly (method : string) (w : World) :
  whenDebug (assertDestroyedStoreOnly method) w =
    if guardFails w
    then (Throw (AssertionError (destroyedStoreMessage method)), w)
    else (Ok tt, emit (guardWarnings method w) w).
Proof.
  unfold whenDebug, assertDestroyedStoreOnly, deprecate, assert,
    guardFails, guardWarnings.
  munfold.
  destruct DEBUG, (truthy _), (isDestroyed w); simpl;
    try reflexivity; by rewrite emit_nil.
Qed.

(** The factory lookup of [_modelFactoryFor], step by step. *)
Lemma _modelFactoryFor_unfold (modelName : string) (w : World) :
  _modelFactoryFor modelName w =
    if guardFails w
    then (Throw (AssertionError (destroyedStoreMessage "_modelFactoryFor")), w)
    else
      let es := guardWarnings "_modelFactoryFor" w in
      if DEBUG && negb (isPresent modelName)
      then (Throw (AssertionError
              "You need to pass a model name to the store's _modelFactoryFor method"),
            emit es w)
      else
        let name := normalizeModelName modelName in
        match _modelFactoryCache w !! name with
        | Some factory => (Ok factory, emit es w)
        | None =>
            match registry w !! name with
            | Some factory =>
                (Ok factory, resolved name factory (es ++ [FactoryLookup name]) w)
            | None =>
                (Throw (EmberError ("No model was found for '" +:+ name +:+ "'")),
                 emit (es ++ [FactoryLookup name]) w)
            end
        end.
Proof.
  unfold _modelFactoryFor.
  unfold mbind at 1, M_bind at 1. rewrite whenDebug_destroyedOnly.
  destruct (guardFails w); [reflexivity|].
  unfold assert, getModelFactory, lookupFactory, resolved. cbv zeta.
  destruct (DEBUG && negb (isPresent modelName)); munfold; simpl; [reflexivity|].
  destruct (_modelFactoryCache w !! normalizeModelName modelName); [reflexivity|].
  simpl. rewrite !emit_emit.
  destruct (registry w !! normalizeModelName modelName); reflexivity.
Qed.

(** ** The factory cache (claims C1 and C4) *)

(** C1.  When two valid type names normalize to the same canonical name
    and resolving the first one returned a handle, resolving the second
    one returns the very same handle (the same heap location); the
    second call is served from the cache: it adds nothing to the world
    but the guard's deprecation warnings, so no environment lookup takes
    place, and on a store that is not destroyed the world is unchanged. *)
Theorem resolveFactory_same_reference (t1 t2 : string) (w w1 : World) (h : loc) :
  normalizeModelName t1 = normalizeModelName t2 →
  isPresent t2 = true →
  _modelFactoryFor t1 w = (Ok h, w1) →
  ∃ ws, _modelFactoryFor t2 w1 = (Ok h, emit ws w1)
        ∧ Forall (λ e, is_deprecation e = true) ws
        ∧ (isDestroyed w = false → _modelFactoryFor t2 w1 = (Ok h, w1)).
Proof.
  intros Hn Hp H. rewrite _modelFactoryFor_unfold in H.
  destruct (guardFails w) eqn:Hg; [discriminate|].
  cbv zeta in H. destruct (DEBUG && negb (isPresent t1)); [discriminate|].
  assert (Hhit : _modelFactoryCache w1 !! normalizeModelName t2 = Some h
                 ∧ guardFails w1 = guardFails w
                 ∧ guardWarnings "_modelFactoryFor" w1 = guardWarnings "_modelFactoryFor" w).
  { rewrite <- Hn.
    destruct (_modelFactoryCache w !! normalizeModelName t1) eqn:Hc.
    - minv H. by rewrite <- Hc.
    - destruct (registry w !! normalizeModelName t1); minv H.
      split; [|done]. unfold resolved. simpl. apply lookup_insert_eq. }
  destruct Hhit as (Hhit & Hg1 & Hw1).
  assert (Hcall : _modelFactoryFor t2 w1
                  = (Ok h, emit (guardWarnings "_modelFactoryFor" w1) w1)).
  { rewrite _modelFactoryFor_unfold, Hg1, Hg. cbv zeta.
    rewrite Hp, andb_false_r, Hhit. reflexivity. }
  exists (guardWarnings "_modelFactoryFor" w1). split; [exact Hcall|].
  split; [apply guardWarnings_deprecations|].
  intros Hd. rewrite Hcall, Hw1. unfold guardWarnings.
  rewrite Hd, andb_false_r. by rewrite emit_nil.
Qed.

(** C4.  On a cache miss for a valid type name, with the guard passed,
    when the environment has no factory under the normalized name the
    call throws the error "No model was found for '<normalized name>'",
    and the factory cache is left as it was: nothing is stored under
    that name. *)
Theorem resolveFactory_not_found (t : string) (w : World) :
  registry w !! normalizeModelName t = None →
  _modelFactoryCache w !! normalizeModelName t = None →
  guardFails w = false →
  (DEBUG = true → isPresent t = true) →
  ∃ w', _modelFactoryFor t w
          = (Throw (EmberError ("No model was found for '" +:+
                                normalizeModelName t +:+ "'")), w')
        ∧ _modelFactoryCache w' = _modelFactoryCache w
        ∧ _modelFactoryCache w' !! normalizeModelName t = None.
Proof.
  intros Hr Hc Hg Hp. rewrite _modelFactoryFor_unfold, Hg. cbv zeta.
  assert (Hv : DEBUG && negb (isPresent t) = false).
  { destruct DEBUG; [|done]. by rewrite Hp. }
  rewrite Hv, Hc, Hr. eexists. split; [reflexivity|]. by split.
Qed.

(** ** [modelFor], step by step *)

Lemma readMember_app (h h' : list object) (v : value) (k : string) (r : value) :
  readMember shimGet h v k = Ok r → readMember shimGet (h ++ h') v k = Ok r.
Proof.
  unfold readMember. destruct v; try done.
  destruct (h !! l) eqn:E; [|done].
  by rewrite (lookup_app_l_Some _ _ _ _ E).
Qed.

Lemma readMember_ref_valid (h : list object) (l : loc) (k : string) (r : value) :
  readMember shimGet h (VRef l) k = Ok r → l < length h.
Proof.
  unfold readMember. destruct (h !! l) eqn:E; [|done]. intros _.
  by apply lookup_lt_Some in E.
Qed.

Lemma set_modelFactoryCache_id (w : World) :
  set_modelFactoryCache (_modelFactoryCache w) w = w.
Proof. by destruct w. Qed.

Lemma _modelFactoryFor_ok (modelName : string) (w w1 : World) (f : loc) :
  _modelFactoryFor modelName w = (Ok f, w1) →
  ∃ es, w1 = resolved (normalizeModelName modelName) f es w
        ∧ guardFails w = false
        ∧ DEBUG && negb (isPresent modelName) = false
        ∧ (∀ f0, _modelFactoryCache w !! normalizeModelName modelName = Some f0
                 → f = f0).
Proof.
  rewrite _modelFactoryFor_unfold.
  destruct (guardFails w); [done|]. cbv zeta.
  destruct (DEBUG && negb (isPresent modelName)); [done|].
  destruct (_modelFactoryCache w !! normalizeModelName modelName) eqn:Hc.
  - intros H; minv H. eexists. split; [|split; [done|split; [done|congruence]]].
    unfold resolved. rewrite <- (set_modelFactoryCache_id (emit _ w)) at 1.
    f_equal. simpl. by rewrite insert_id.
  - destruct (registry w !! normalizeModelName modelName); [|done].
    intros H; minv H. by eexists.
Qed.

Lemma modelFor_unfold (modelName : string) (w : World) :
  modelFor modelName w =
    if guardFails w
    then (Throw (AssertionError (destroyedStoreMessage "modelFor")), w)
    else
      let w0 := emit (guardWarnings "modelFor" w) w in
      if DEBUG && negb (isPresent modelName)
      then (Throw (AssertionError
              "You need to pass a model name to the store's modelFor method"), w0)
      else
        match _modelFactoryFor modelName w0 with
        | (Throw e, w1) => (Throw e, w1)
        | (Ok f, w1) =>
            match readMember shimGet (heap w1) (VRef f) "class" with
            | Throw e => (Throw e, w1)
            | Ok class =>
                let klass := if truthy class then class else VRef f in
                match readMember shimGet (heap w1) klass "isModel" with
                | Throw e => (Throw e, w1)
                | Ok isModel =>
                    if truthy isModel then (Ok klass, w1)
                    else (Ok (VRef (length (heap w1))),
                          set_heap (heap w1 ++ [OShim modelName]) w1)
                end
            end
        end.
Proof.
  unfold modelFor.
  unfold mbind at 1, M_bind at 1. rewrite whenDebug_destroyedOnly.
  destruct (guardFails w); [reflexivity|].
  unfold assert. cbv zeta.
  destruct (DEBUG && negb (isPresent modelName)); munfold; simpl; [reflexivity|].
  destruct (_modelFactoryFor modelName _) as [[f|e] w1]; [|reflexivity].
  unfold getMember, getMemberWith, newShimModelClass.
  destruct (readMember shimGet (heap w1) (VRef f) "class") as [class|e]; [|reflexivity].
  destruct (readMember shimGet (heap w1) _ "isModel") as [isModel|e]; [|reflexivity].
  destruct (truthy isModel); reflexivity.
Qed.

(** A successful [modelFor]: the factory is cached under the normalized
    name, the class is read off the heap, and the heap grows by one
    stand-in exactly when the class is not a model. *)
Lemma modelFor_ok (modelName : string) (w w' : World) (v : value) :
  modelFor modelName w = (Ok v, w') →
  ∃ f es class isModel,
    readMember shimGet (heap w) (VRef f) "class" = Ok class
    ∧ readMember shimGet (heap w)
        (if truthy class then class else VRef f) "isModel" = Ok isModel
    ∧ v = (if truthy isModel then (if truthy class then class else VRef f)
           else VRef (length (heap w)))
    ∧ w' = (if truthy isModel
            then resolved (normalizeModelName modelName) f es w
            else set_heap (heap w ++ [OShim modelName])
                   (resolved (normalizeModelName modelName) f es w))
    ∧ guardFails w = false
    ∧ DEBUG && negb (isPresent modelName) = false
    ∧ (∀ f0, _modelFactoryCache w !! normalizeModelName modelName = Some f0
             → f = f0).
Proof.
  rewrite modelFor_unfold.
  destruct (guardFails w) eqn:Hg; [done|]. cbv zeta.
  destruct (DEBUG && negb (isPresent modelName)) eqn:Hp; [done|].
  destruct (_modelFactoryFor modelName _) as [[f|e] w1] eqn:Hf; [|done].
  apply _modelFactoryFor_ok in Hf as (es & -> & _ & _ & Hhit).
  unfold resolved at 1 2 3 4 5. simpl heap.
  destruct (readMember shimGet (heap w) (VRef f) "class") as [class|e] eqn:Hc; [|done].
  destruct (readMember shimGet (heap w) _ "isModel") as [isModel|e] eqn:Hm; [|done].
  intros H. exists f, (guardWarnings "modelFor" w ++ es)%list, class, isModel.
  split; [done|]. split; [done|].
  unfold resolved in *. rewrite emit_emit in H. simpl in H.
  destruct (truthy isModel); minv H; done.
Qed.

(** ** [modelFor]: the class, or a fresh stand-in (claim C8) *)

(** C8.  A successful [modelFor] has resolved the factory now cached under
    the normalized name; the class is the factory's [class] member when
    that is truthy and the factory itself otherwise.  When the class is a
    model ([isModel] truthy) the class itself is returned and nothing is
    allocated.  Otherwise the result is a stand-in allocated by this very
    call, at a location the heap did not have before; the metadata caches
    are untouched and the factory cache gains nothing but the factory, so
    the stand-in is stored in no cache; and calling [modelFor] again with
    the same name succeeds and returns another stand-in, at a different
    location. *)
Theorem modelFor_class_or_fresh_shim (modelName : string) (w w1 : World) (v : value) :
  modelFor modelName w = (Ok v, w1) →
  ∃ f class isModel,
    _modelFactoryCache w1 !! normalizeModelName modelName = Some f
    ∧ readMember shimGet (heap w) (VRef f) "class" = Ok class
    ∧ readMember shimGet (heap w)
        (if truthy class then class else VRef f) "isModel" = Ok isModel
    ∧ (truthy isModel = true →
         v = (if truthy class then class else VRef f) ∧ heap w1 = heap w)
    ∧ (truthy isModel = false →
         v = VRef (length (heap w))
         ∧ heap w !! length (heap w) = None
         ∧ heap w1 = (heap w ++ [OShim modelName])%list
         ∧ _attributesDefCache w1 = _attributesDefCache w
         ∧ _relationshipsDefCache w1 = _relationshipsDefCache w
         ∧ _modelFactoryCache w1
             = <[normalizeModelName modelName := f]> (_modelFactoryCache w)
         ∧ f ≠ length (heap w)
         ∧ ∃ l2 w2, modelFor modelName w1 = (Ok (VRef l2), w2)
                    ∧ VRef l2 ≠ v
                    ∧ heap w2 = (heap w1 ++ [OShim modelName])%list
                    ∧ heap w2 !! l2 = Some (OShim modelName)).
Proof.
  intros H. apply modelFor_ok in H
    as (f & es & class & isModel & Hc & Hm & -> & -> & Hg & Hp & _).
  exists f, class, isModel. split.
  { destruct (truthy isModel); unfold resolved; simpl; apply lookup_insert_eq. }
  split; [done|]. split; [done|]. split.
  { intros ->. by unfold resolved. }
  intros Ht. rewrite Ht. split; [done|].
  split; [by apply lookup_ge_None|].
  split; [by unfold resolved|].
  split; [by unfold resolved|].
  split; [by unfold resolved|].
  split; [by unfold resolved|].
  pose proof (readMember_ref_valid _ _ _ _ Hc) as Hlt.
  split; [lia|].
  set (w1 := set_heap _ _).
  assert (Hh1 : heap w1 = (heap w ++ [OShim modelName])%list) by done.
  exists (length (heap w1)), (set_heap (heap w1 ++ [OShim modelName])
    (emit (guardWarnings "modelFor" w1 ++ guardWarnings "_modelFactoryFor" w1) w1)).
  split.
  - rewrite modelFor_unfold.
    replace (guardFails w1) with false by (by rewrite <- Hg).
    cbv zeta. rewrite Hp. rewrite _modelFactoryFor_unfold.
    replace (guardFails (emit _ w1)) with false by (by rewrite <- Hg).
    cbv zeta. rewrite Hp.
    replace (_modelFactoryCache (emit _ w1) !! normalizeModelName modelName)
      with (Some f) by (symmetry; apply lookup_insert_eq).
    rewrite emit_emit.
    replace (heap (emit _ w1)) with (heap w ++ [OShim modelName])%list by done.
    rewrite (readMember_app _ _ _ _ _ Hc), (readMember_app _ _ _ _ _ Hm).
    rewrite Ht, Hh1. reflexivity.
  - split.
    { rewrite Hh1, length_app. simpl. intros [=]. lia. }
    split; [done|]. simpl. by rewrite lookup_app_r, Nat.sub_diag.
Qed.

(** ** The attribute cache, step by step *)

Lemma set_heap_id (w : World) : set_heap (heap w) w = w.
Proof. by destruct w. Qed.

Lemma setProperty_heap (l : loc) (k : string) (v : value) (w w' : World)
    (r : Result unit) :
  setProperty l k v w = (r, w') →
  ∃ h', w' = set_heap h' w ∧ length h' = length (heap w).
Proof.
  unfold setProperty. intros H.
  destruct (heap w !! l) as [[]|]; minv H;
    first [ (eexists; split; [reflexivity|]; by rewrite length_insert)
          | (eexists; split; [symmetry; apply set_heap_id|done]) ].
Qed.

(** Copying the entries of a map into an object touches the heap only,
    and allocates nothing. *)
Lemma forEachEntry_setProperty (l : loc) (entries : list (string * value))
    (w w' : World) (r : Result unit) :
  forEachEntry (λ meta name, setProperty l name meta) entries w = (r, w') →
  ∃ h', w' = set_heap h' w ∧ length h' = length (heap w).
Proof.
  revert w. induction entries as [|[name meta] rest IH]; intros w H.
  - minv H. eexists. split; [symmetry; apply set_heap_id|done].
  - simpl in H. unfold mbind, M_bind in H.
    destruct (setProperty l name meta w) as [[[]|e] w0] eqn:Hs.
    + apply setProperty_heap in Hs as (h0 & -> & Hl0).
      apply IH in H as (h1 & -> & Hl1). exists h1. split; [done|].
      simpl in Hl1. lia.
    + minv H. by apply setProperty_heap in Hs.
Qed.

Lemma mapForEach_setProperty (l : loc) (m : value) (w w' : World) (r : Result unit) :
  mapForEach m (λ meta name, setProperty l name meta) w = (r, w') →
  ∃ h', w' = set_heap h' w ∧ length h' = length (heap w).
Proof.
  unfold mapForEach. intros H.
  destruct m; munfold;
    try (minv H; eexists; split; [symmetry; apply set_heap_id|done]).
  destruct (heap w !! l0) as [[]|];
    try (minv H; eexists; split; [symmetry; apply set_heap_id|done]).
  by apply forEachEntry_setProperty in H.
Qed.

(** A first, successful request for the attributes of a type: the result
    is an object allocated by this call, and the cache of the resulting
    world is the old cache with that object stored under the raw name. *)
Lemma _attributesDefinitionFor_miss (modelName : string) (w w1 : World) (v : value) :
  CUSTOM_MODEL_CLASS = false →
  jsIndex (_attributesDefCache w) modelName = VUndefined →
  _attributesDefinitionFor modelName w = (Ok v, w1) →
  ∃ a f, v = VRef a
         ∧ (length (heap w) ≤ a < length (heap w1))%nat
         ∧ _attributesDefCache w1 = <[modelName := VRef a]> (_attributesDefCache w)
         ∧ _modelFactoryCache w1
             = <[normalizeModelName modelName := f]> (_modelFactoryCache w)
         ∧ (∀ f0, _modelFactoryCache w !! normalizeModelName modelName = Some f0
                  → f = f0).
Proof.
  intros HC Hmiss H. unfold _attributesDefinitionFor in H. rewrite HC in H.
  unfold mbind at 1, M_bind at 1, getWorld in H. rewrite Hmiss in H. simpl in H.
  unfold mbind at 1, M_bind at 1 in H.
  destruct (modelFor modelName w) as [[modelClass|e] w0] eqn:Hm; [|done].
  apply modelFor_ok in Hm as (f & es & class & isModel & _ & _ & _ & Hw0 & _ & _ & Hhit).
  assert (Hw0' : (length (heap w) ≤ length (heap w0))%nat
                 ∧ _attributesDefCache w0 = _attributesDefCache w
                 ∧ _modelFactoryCache w0
                     = <[normalizeModelName modelName := f]> (_modelFactoryCache w)).
  { subst w0. destruct (truthy isModel); unfold resolved; simpl; [done|].
    rewrite length_app. simpl. split; [lia|done]. }
  clear Hw0. destruct Hw0' as (Hlen & Hcache & Hfc).
  unfold mbind at 1, M_bind at 1, getMember, getMemberWith in H.
  destruct (readMember shimGet (heap w0) modelClass "attributes")
    as [attributeMap|e]; [|done].
  unfold mbind at 1, M_bind at 1, alloc in H.
  unfold mbind at 1, M_bind at 1 in H.
  destruct (mapForEach attributeMap _ _) as [[[]|e] w2] eqn:Hf; [|done].
  apply mapForEach_setProperty in Hf as (h2 & -> & Hl2).
  munfold. minv H. exists (length (heap w0)), f. split; [done|].
  simpl in *. rewrite length_app in Hl2. simpl in Hl2.
  split; [lia|]. by rewrite Hcache.
Qed.

(** ** The relationship cache, step by step *)

(** A first, successful request for the relationships of a type: the
    result is what the class answers for [relationshipsObject], or null,
    and it is stored under the raw name. *)
Lemma _relationshipsDefinitionFor_miss (modelName : string) (w w1 : World) (r : value) :
  CUSTOM_MODEL_CLASS = false →
  jsIndex (_relationshipsDefCache w) modelName = VUndefined →
  _relationshipsDefinitionFor modelName w = (Ok r, w1) →
  ∃ modelClass w0 relationshipsObject f,
    modelFor modelName w = (Ok modelClass, w0)
    ∧ readMember shimGet (heap w0) modelClass "relationshipsObject"
        = Ok relationshipsObject
    ∧ r = js_or relationshipsObject VNull
    ∧ w1 = set_relationshipsDefCache (<[modelName := r]> (_relationshipsDefCache w0)) w0
    ∧ _relationshipsDefCache w0 = _relationshipsDefCache w
    ∧ _modelFactoryCache w1
        = <[normalizeModelName modelName := f]> (_modelFactoryCache w)
    ∧ (∀ f0, _modelFactoryCache w !! normalizeModelName modelName = Some f0
             → f = f0).
Proof.
  intros HC Hmiss H. unfold _relationshipsDefinitionFor in H. rewrite HC in H.
  unfold mbind at 1, M_bind at 1, getWorld in H. rewrite Hmiss in H. simpl in H.
  unfold mbind at 1, M_bind at 1 in H.
  destruct (modelFor modelName w) as [[modelClass|e] w0] eqn:Hm; [|done].
  pose proof Hm as Hm'.
  apply modelFor_ok in Hm' as (f & es & class & isModel & _ & _ & _ & Hw0 & _ & _ & Hhit).
  unfold mbind at 1, M_bind at 1, getMember, getMemberWith in H.
  destruct (readMember shimGet (heap w0) modelClass "relationshipsObject")
    as [relationshipsObject|e] eqn:Hr; [|done].
  assert (Hw0' : _relationshipsDefCache w0 = _relationshipsDefCache w
                 ∧ _modelFactoryCache w0
                     = <[normalizeModelName modelName := f]> (_modelFactoryCache w)).
  { rewrite Hw0. destruct (truthy isModel); by unfold resolved. }
  clear Hw0. destruct Hw0' as [Hrc Hfc].
  munfold. injection H as <- <-.
  exists modelClass, w0, relationshipsObject, f. by do 4 (split; [done|]).
Qed.

Lemma jsIndex_defined (o : gmap string value) (k : string) (v : value) :
  jsIndex o k = v → is_undefined v = false → o !! k = Some v.
Proof.
  unfold jsIndex. destruct (o !! k); simpl; [by intros ->|].
  intros <- Hu. simpl in Hu. discriminate.
Qed.

Lemma _attributesDefinitionFor_hit (modelName : string) (w : World) (v : value) :
  CUSTOM_MODEL_CLASS = false →
  _attributesDefCache w !! modelName = Some v →
  is_undefined v = false →
  _attributesDefinitionFor modelName w = (Ok v, w).
Proof.
  intros HC Hc Hv. unfold _attributesDefinitionFor. rewrite HC. munfold.
  unfold jsIndex. rewrite Hc. simpl. by rewrite Hv.
Qed.

Lemma _relationshipsDefinitionFor_hit (modelName : string) (w : World) (v : value) :
  CUSTOM_MODEL_CLASS = false →
  _relationshipsDefCache w !! modelName = Some v →
  is_undefined v = false →
  _relationshipsDefinitionFor modelName w = (Ok v, w).
Proof.
  intros HC Hc Hv. unfold _relationshipsDefinitionFor. rewrite HC. munfold.
  unfold jsIndex. rewrite Hc. simpl. by rewrite Hv.
Qed.

Lemma js_or_null_defined (v : value) : is_undefined (js_or v VNull) = false.
Proof. unfold js_or. destruct (truthy v) eqn:E; [by destruct v|done]. Qed.

(** ** Memoized metadata (claims C2, C6 and C9) *)

(** C2.  In legacy mode, once [_attributesDefinitionFor] has returned a
    mapping for a name, that mapping is stored in the cache under the
    name, and a further call with the same name returns the same value
    (the same heap location) and leaves the world exactly as it finds it,
    in every world whose cache still holds that entry, whatever else
    (the heap with the class metadata, the registry, the other caches)
    has changed in between. *)
Theorem attributes_memoized (modelName : string) (w w1 : World) (v : value) :
  CUSTOM_MODEL_CLASS = false →
  _attributesDefinitionFor modelName w = (Ok v, w1) →
  _attributesDefCache w1 !! modelName = Some v
  ∧ ∀ w2, _attributesDefCache w2 !! modelName = _attributesDefCache w1 !! modelName →
          _attributesDefinitionFor modelName w2 = (Ok v, w2).
Proof.
  intros HC H.
  assert (Hentry : _attributesDefCache w1 !! modelName = Some v
                   ∧ is_undefined v = false).
  { destruct (is_undefined (jsIndex (_attributesDefCache w) modelName)) eqn:Hu.
    - assert (Hmiss : jsIndex (_attributesDefCache w) modelName = VUndefined)
        by (by destruct (jsIndex _ _)).
      destruct (_attributesDefinitionFor_miss _ _ _ _ HC Hmiss H)
        as (a & f & -> & _ & -> & _).
      split; [apply lookup_insert_eq|done].
    - unfold _attributesDefinitionFor in H. rewrite HC in H. munfold.
      rewrite Hu in H. minv H. split; [|done]. by apply jsIndex_defined. }
  destruct Hentry as [Hentry Hv]. split; [done|].
  intros w2 H2. apply _attributesDefinitionFor_hit; [done| |done].
  by rewrite H2.
Qed.

(** C6.  In legacy mode, take a type not yet in the relationship cache
    whose class answers [relationshipsObject] with some value; a type
    that declares no relationships answers with a falsy value
    (undefined).  The first call returns that value or, when it is
    falsy, null: never undefined.  This result is stored in the cache
    under the name, where the not-yet-cached state reads as undefined;
    and a further call returns the same result and leaves the world
    exactly as it finds it, in every world whose cache holds that
    entry. *)
Theorem relationships_absent_is_cached (modelName : string) (w w0 : World)
    (modelClass relationshipsObject : value) :
  CUSTOM_MODEL_CLASS = false →
  jsIndex (_relationshipsDefCache w) modelName = VUndefined →
  modelFor modelName w = (Ok modelClass, w0) →
  readMember shimGet (heap w0) modelClass "relationshipsObject"
    = Ok relationshipsObject →
  let r := js_or relationshipsObject VNull in
  let w1 := set_relationshipsDefCache
              (<[modelName := r]> (_relationshipsDefCache w0)) w0 in
  _relationshipsDefinitionFor modelName w = (Ok r, w1)
  ∧ r ≠ VUndefined
  ∧ (truthy relationshipsObject = false → r = VNull)
  ∧ _relationshipsDefCache w1 !! modelName = Some r
  ∧ ∀ w2, _relationshipsDefCache w2 !! modelName = Some r →
          _relationshipsDefinitionFor modelName w2 = (Ok r, w2).
Proof.
  intros HC Hmiss Hm Hr r w1. split.
  { unfold _relationshipsDefinitionFor. rewrite HC.
    unfold mbind at 1, M_bind at 1, getWorld. rewrite Hmiss. simpl.
    unfold mbind at 1, M_bind at 1. rewrite Hm.
    unfold mbind at 1, M_bind at 1, getMember, getMemberWith. rewrite Hr.
    reflexivity. }
  split.
  { intros Hu. pose proof (js_or_null_defined relationshipsObject) as Hd.
    fold r in Hd. by rewrite Hu in Hd. }
  split.
  { intros Ht. subst r. unfold js_or. by rewrite Ht. }
  split; [apply lookup_insert_eq|].
  intros w2 H2. apply _relationshipsDefinitionFor_hit; [done..|].
  apply js_or_null_defined.
Qed.

(** C9 (as amended).  In legacy mode the metadata caches are keyed by the
    raw name.  For two distinct raw names with the same normalized name,
    neither cached yet, two successive successful calls, one per name,
    store one entry under each raw name, in the attribute cache and in
    the relationship cache alike, while the factory cache holds the one
    handle under the normalized name.  The two attribute mappings are
    not the same reference.  (The two relationship results are what the
    class answers, or null; nothing is said of their identity.) *)
Theorem metadata_caches_keyed_by_raw_name (n1 n2 : string) :
  CUSTOM_MODEL_CLASS = false →
  n1 ≠ n2 →
  normalizeModelName n1 = normalizeModelName n2 →
  (∀ w w1 w2 v1 v2,
     jsIndex (_attributesDefCache w) n1 = VUndefined →
     jsIndex (_attributesDefCache w) n2 = VUndefined →
     _attributesDefinitionFor n1 w = (Ok v1, w1) →
     _attributesDefinitionFor n2 w1 = (Ok v2, w2) →
     v1 ≠ v2
     ∧ _attributesDefCache w2 = <[n2 := v2]> (<[n1 := v1]> (_attributesDefCache w))
     ∧ _attributesDefCache w2 !! n1 = Some v1
     ∧ _attributesDefCache w2 !! n2 = Some v2
     ∧ ∃ f, _modelFactoryCache w2
              = <[normalizeModelName n1 := f]> (_modelFactoryCache w))
  ∧ (∀ w w1 w2 r1 r2,
       jsIndex (_relationshipsDefCache w) n1 = VUndefined →
       jsIndex (_relationshipsDefCache w) n2 = VUndefined →
       _relationshipsDefinitionFor n1 w = (Ok r1, w1) →
       _relationshipsDefinitionFor n2 w1 = (Ok r2, w2) →
       _relationshipsDefCache w2
         = <[n2 := r2]> (<[n1 := r1]> (_relationshipsDefCache w))
       ∧ _relationshipsDefCache w2 !! n1 = Some r1
       ∧ _relationshipsDefCache w2 !! n2 = Some r2
       ∧ ∃ f, _modelFactoryCache w2
                = <[normalizeModelName n1 := f]> (_modelFactoryCache w)).
Proof.
  intros HC Hne Hn. split.
  - intros w w1 w2 v1 v2 Hm1 Hm2 H1 H2.
    destruct (_attributesDefinitionFor_miss _ _ _ _ HC Hm1 H1)
      as (a1 & f1 & -> & Hl1 & Hc1 & Hf1 & _).
    assert (Hm2' : jsIndex (_attributesDefCache w1) n2 = VUndefined).
    { unfold jsIndex in *. rewrite Hc1. by rewrite lookup_insert_ne. }
    destruct (_attributesDefinitionFor_miss _ _ _ _ HC Hm2' H2)
      as (a2 & f2 & -> & Hl2 & Hc2 & Hf2 & Hhit).
    split; [intros [=]; lia|].
    split; [by rewrite Hc2, Hc1|].
    split; [rewrite Hc2, Hc1, lookup_insert_ne by done; apply lookup_insert_eq|].
    split; [rewrite Hc2; apply lookup_insert_eq|].
    exists f1. rewrite Hf2, Hf1, <- Hn.
    rewrite (Hhit f1); [apply insert_insert_eq|].
    rewrite Hf1, <- Hn. apply lookup_insert_eq.
  - intros w w1 w2 r1 r2 Hm1 Hm2 H1 H2.
    destruct (_relationshipsDefinitionFor_miss _ _ _ _ HC Hm1 H1)
      as (c1 & u1 & o1 & f1 & _ & _ & _ & Hw1 & Hc1 & Hf1 & _).
    assert (Hc1' : _relationshipsDefCache w1
                   = <[n1 := r1]> (_relationshipsDefCache w)).
    { rewrite Hw1. simpl. by rewrite Hc1. }
    assert (Hm2' : jsIndex (_relationshipsDefCache w1) n2 = VUndefined).
    { unfold jsIndex in *. rewrite Hc1'. by rewrite lookup_insert_ne. }
    destruct (_relationshipsDefinitionFor_miss _ _ _ _ HC Hm2' H2)
      as (c2 & u2 & o2 & f2 & _ & _ & _ & Hw2 & Hc2 & Hf2 & Hhit).
    assert (Hc2' : _relationshipsDefCache w2
                   = <[n2 := r2]> (_relationshipsDefCache w1)).
    { rewrite Hw2. simpl. by rewrite Hc2. }
    split; [by rewrite Hc2', Hc1'|].
    split; [rewrite Hc2', Hc1', lookup_insert_ne by done; apply lookup_insert_eq|].
    split; [rewrite Hc2'; apply lookup_insert_eq|].
    exists f1. rewrite Hf2, Hf1, <- Hn.
    rewrite (Hhit f1); [apply insert_insert_eq|].
    rewrite Hf1, <- Hn. apply lookup_insert_eq.
Qed.

(** ** Single-key relationship lookup (claims C7 and C10) *)

(** Factory resolution and [modelFor] neither read nor write the
    relationship cache. *)
Lemma _modelFactoryFor_relationshipsDefCache (modelName : string)
    (cache : gmap string value) (w : World) :
  _modelFactoryFor modelName (set_relationshipsDefCache cache w) =
    let (r, w1) := _modelFactoryFor modelName w in
    (r, set_relationshipsDefCache cache w1).
Proof.
  rewrite !_modelFactoryFor_unfold.
  unfold guardFails, guardWarnings, resolved. simpl.
  destruct (DEBUG && truthy _ && isDestroyed w); [reflexivity|].
  destruct (DEBUG && negb (isPresent modelName)); [reflexivity|].
  destruct (_modelFactoryCache w !! _); [reflexivity|].
  destruct (registry w !! _); reflexivity.
Qed.

Lemma modelFor_relationshipsDefCache (modelName : string)
    (cache : gmap string value) (w : World) :
  modelFor modelName (set_relationshipsDefCache cache w) =
    let (r, w1) := modelFor modelName w in (r, set_relationshipsDefCache cache w1).
Proof.
  rewrite !modelFor_unfold. cbv zeta.
  change (guardFails (set_relationshipsDefCache cache w)) with (guardFails w).
  destruct (guardFails w); [reflexivity|].
  destruct (DEBUG && negb (isPresent modelName)); [reflexivity|].
  change (emit (guardWarnings "modelFor" (set_relationshipsDefCache cache w))
            (set_relationshipsDefCache cache w))
    with (set_relationshipsDefCache cache (emit (guardWarnings "modelFor" w) w)).
  rewrite _modelFactoryFor_relationshipsDefCache.
  destruct (_modelFactoryFor modelName _) as [[f|e] w1]; [|reflexivity].
  change (heap (set_relationshipsDefCache cache w1)) with (heap w1).
  destruct (readMember shimGet (heap w1) (VRef f) "class"); [|reflexivity].
  destruct (readMember shimGet (heap w1) _ "isModel") as [isModel|]; [|reflexivity].
  by destruct (truthy isModel).
Qed.

Lemma getRelationshipsByName_plain (modelClass : value) (w : World) :
  isStandIn (heap w) modelClass = false →
  getRelationshipsByName modelClass w
    = (readMember shimGet (heap w) modelClass "relationshipsByName", w).
Proof.
  unfold getRelationshipsByName, isStandIn, getMember, getMemberWith.
  destruct modelClass as [| | | | |l|]; try done.
  by destruct (heap w !! l) as [[]|].
Qed.

(** C7 (as amended).  In pluggable mode the single-key lookup reads member
    [key] of the relationship map that [_relationshipsDefinitionFor]
    returns, and that map is the answer of the schema definition service
    (the provider): the service installed on the store, or one created and
    installed by this call.  In legacy mode it resolves the class with
    [modelFor], reads [relationshipsByName] off it and looks [key] up in
    that map.  When what [modelFor] returns is not a stand-in, the
    relationship cache plays no part: swapping any other cache contents in
    changes neither the result nor the other effects, and the contents
    come out as they went in.  (For a stand-in, [relationshipsByName] is
    the stand-in's getter, which runs on the store.) *)
Theorem relationshipMetaFor_paths (modelName : string) (id : option string)
    (key : string) (w : World) :
  (CUSTOM_MODEL_CLASS = true →
     let (service, w0) :=
       if truthy (_schemaDefinitionService w)
       then (_schemaDefinitionService w, w)
       else (VRef (length (heap w)),
             set_schemaDefinitionService (VRef (length (heap w)))
               (set_heap (heap w ++ [OSchemaService]) w)) in
     _relationshipsDefinitionFor modelName w
       = service_relationshipsDefinitionFor service modelName w0
     ∧ _relationshipMetaFor modelName id key w =
         match service_relationshipsDefinitionFor service modelName w0 with
         | (Ok relationships, w1) =>
             (readMember shimGet (heap w1) relationships key, w1)
         | (Throw e, w1) => (Throw e, w1)
         end)
  ∧ (CUSTOM_MODEL_CLASS = false →
       _relationshipMetaFor modelName id key w =
         match modelFor modelName w with
         | (Ok modelClass, w1) =>
             match getRelationshipsByName modelClass w1 with
             | (Ok relationshipsByName, w2) =>
                 (readMapGet (heap w2) relationshipsByName key, w2)
             | (Throw e, w2) => (Throw e, w2)
             end
         | (Throw e, w1) => (Throw e, w1)
         end
       ∧ ((∀ modelClass w1, modelFor modelName w = (Ok modelClass, w1) →
                            isStandIn (heap w1) modelClass = false) →
          ∀ cache,
            _relationshipMetaFor modelName id key (set_relationshipsDefCache cache w) =
              let (r, w1) := _relationshipMetaFor modelName id key w in
              (r, set_relationshipsDefCache cache w1))).
Proof.
  split; intros HC.
  - assert (Hdef : _relationshipsDefinitionFor modelName w =
      (let (service, w0) :=
         if truthy (_schemaDefinitionService w)
         then (_schemaDefinitionService w, w)
         else (VRef (length (heap w)),
               set_schemaDefinitionService (VRef (length (heap w)))
                 (set_heap (heap w ++ [OSchemaService]) w)) in
       service_relationshipsDefinitionFor service modelName w0)).
    { unfold _relationshipsDefinitionFor, getSchemaDefinitionService, alloc.
      rewrite HC. munfold. by destruct (truthy (_schemaDefinitionService w)). }
    unfold _relationshipMetaFor. rewrite HC. unfold mbind, M_bind.
    rewrite Hdef. unfold getMember, getMemberWith.
    destruct (truthy (_schemaDefinitionService w)); (split; [reflexivity|]);
      by destruct (service_relationshipsDefinitionFor _ _ _) as [[]].
  - assert (Hshape : ∀ w,
      _relationshipMetaFor modelName id key w =
        match modelFor modelName w with
        | (Ok modelClass, w1) =>
            match getRelationshipsByName modelClass w1 with
            | (Ok relationshipsByName, w2) =>
                (readMapGet (heap w2) relationshipsByName key, w2)
            | (Throw e, w2) => (Throw e, w2)
            end
        | (Throw e, w1) => (Throw e, w1)
        end).
    { intros w'. unfold _relationshipMetaFor. rewrite HC.
      unfold mbind at 1, M_bind at 1.
      destruct (modelFor modelName w') as [[modelClass|e] w1]; [|reflexivity].
      unfold mbind, M_bind, mapGet.
      by destruct (getRelationshipsByName modelClass w1) as [[]]. }
    split; [apply Hshape|].
    intros Hplain cache. rewrite !Hshape, modelFor_relationshipsDefCache.
    destruct (modelFor modelName w) as [[modelClass|e] w1] eqn:Hm; [|reflexivity].
    specialize (Hplain _ _ eq_refl).
    rewrite !getRelationshipsByName_plain by done.
    change (heap (set_relationshipsDefCache cache w1)) with (heap w1).
    by destruct (readMember _ _ _ _).
Qed.

(** C10.  The [id] argument of [_relationshipMetaFor] plays no part: two
    calls that differ in [id] only are the same computation, in the legacy
    and in the pluggable branch. *)
Theorem relationshipMetaFor_ignores_id (modelName : string)
    (id1 id2 : option string) (key : string) (w : World) :
  _relationshipMetaFor modelName id1 key w = _relationshipMetaFor modelName id2 key w.
Proof. unfold _relationshipMetaFor. by destruct CUSTOM_MODEL_CLASS. Qed.

(** ** Constructor arguments (claim C5) *)

(** C5.  A successful [instantiateRecord] has created the record, at a
    fresh location, from the factory resolved for the identifier's type.
    Its arguments are assembled from the object literal holding the store,
    the internal model, the internal model's current state and a null
    [container]; the caller's arguments are merged in, and on every key the
    caller supplies the caller's value wins; the owner of the arguments is
    the store's owner; and the key [container] is deleted before the record
    is created, every other key staying as merged. *)
Theorem instantiateRecord_arguments (identifier : StableRecordIdentifier)
    (createRecordArgs : gmap string value) (notificationManager : value)
    (w w1 : World) (record : loc) :
  instantiateRecord identifier createRecordArgs notificationManager w
    = (Ok record, w1) →
  let internalModel := _internalModelForResource w identifier in
  ∃ currentState factory,
    let literal : gmap string value :=
      <["store" := VStore]>
        (<["_internalModel" := internalModel]>
           (<["currentState" := currentState]>
              (<["container" := VNull]> ∅))) in
    let merged := createRecordArgs ∪ literal in
    let props := delete "container" merged in
    readMember shimGet (heap w) internalModel "currentState" = Ok currentState
    ∧ _modelFactoryCache w1 !! normalizeModelName (type identifier) = Some factory
    ∧ record = length (heap w)
    ∧ heap w1 = (heap w ++ [ORecord factory props (owner w)])%list
    ∧ Created factory record ∈ trace w1
    ∧ literal !! "container" = Some VNull
    ∧ (∀ k v, createRecordArgs !! k = Some v → merged !! k = Some v)
    ∧ (∀ k, createRecordArgs !! k = None → merged !! k = literal !! k)
    ∧ props !! "container" = None
    ∧ ∀ k, k ≠ "container" → props !! k = merged !! k.
Proof.
  intros H internalModel. unfold instantiateRecord in H.
  unfold mbind at 1, M_bind at 1, getWorld in H.
  unfold mbind at 1, M_bind at 1, getMember, getMemberWith in H.
  fold internalModel in H.
  destruct (readMember shimGet (heap w) internalModel "currentState")
    as [currentState|e] eqn:Hcs; [|done].
  unfold mbind at 1, M_bind at 1 in H.
  destruct (_modelFactoryFor (type identifier) w) as [[factory|e] w0] eqn:Hf; [|done].
  apply _modelFactoryFor_ok in Hf as (es & -> & _).
  unfold factoryCreate, subscribe, alloc, assign, setOwner, deleteProperty in H.
  munfold. simpl in H. injection H as <- <-.
  exists currentState, factory. cbv zeta.
  split; [done|]. split; [apply lookup_insert_eq|].
  split; [done|]. split; [done|].
  split.
  { simpl. rewrite !elem_of_app. left. right. apply list_elem_of_here. }
  split; [done|].
  split.
  { intros k v Hk. rewrite lookup_union, Hk.
    destruct (_ !! k) as [v'|] eqn:E in |- *; reflexivity. }
  split.
  { intros k Hk. rewrite lookup_union, Hk.
    destruct (_ !! k) as [v'|] eqn:E in |- *; reflexivity. }
  split; [apply lookup_delete_eq|].
  intros k Hk. by rewrite lookup_delete_ne.
Qed.

(** ** Effects of the operations on the world *)

Lemma whenDebug_destroying (method : string) (w : World) :
  whenDebug (assertDestroyingStore method) w =
    if probeFails w
    then (Throw (AssertionError (destroyedStoreMessage method)), w)
    else (Ok tt, emit (probeWarnings method w) w).
Proof.
  unfold whenDebug, assertDestroyingStore, deprecate, assert,
    probeFails, probeWarnings.
  munfold.
  destruct DEBUG, (truthy _), (isDestroying w), (isDestroyed w); simpl;
    try reflexivity; by rewrite emit_nil.
Qed.

Lemma guardWarnings_resolution (method : string) (w : World) :
  Forall (λ e, is_resolution e = true) (guardWarnings method w).
Proof. unfold guardWarnings. case (_ && _); repeat constructor. Qed.

Lemma probeWarnings_resolution (method : string) (w : World) :
  Forall (λ e, is_resolution e = true) (probeWarnings method w).
Proof. unfold probeWarnings. case (_ && _); repeat constructor. Qed.

(** The shape of every world an operation leaves: objects appended to the
    heap, a factory cache, events appended to the trace. *)
Lemma world_shape_id (w : World) :
  w = set_heap (heap w ++ []) (set_modelFactoryCache (_modelFactoryCache w) (emit [] w)).
Proof. destruct w. unfold emit. simpl. by rewrite !app_nil_r. Qed.

Lemma _modelFactoryFor_effects (modelName : string) (w w' : World) (r : Result loc) :
  _modelFactoryFor modelName w = (r, w') →
  ∃ c es, Forall (λ e, is_resolution e = true) es
          ∧ w' = set_modelFactoryCache c (emit es w).
Proof.
  rewrite _modelFactoryFor_unfold.
  pose proof (guardWarnings_resolution "_modelFactoryFor" w) as Hg.
  assert (Hl : Forall (λ e, is_resolution e = true)
                 (guardWarnings "_modelFactoryFor" w
                  ++ [FactoryLookup (normalizeModelName modelName)])).
  { apply Forall_app. split; [done|]. by repeat constructor. }
  destruct (guardFails w).
  { intros [= <- <-]. exists (_modelFactoryCache w), []. split; [done|].
    rewrite emit_nil. by destruct w. }
  cbv zeta. destruct (DEBUG && negb (isPresent modelName)).
  { intros [= <- <-]. eexists (_modelFactoryCache w), _. split; [exact Hg|].
    symmetry. apply (set_modelFactoryCache_id (emit _ w)). }
  destruct (_modelFactoryCache w !! _).
  { intros [= <- <-]. eexists (_modelFactoryCache w), _. split; [exact Hg|].
    symmetry. apply (set_modelFactoryCache_id (emit _ w)). }
  destruct (registry w !! _).
  - intros [= <- <-]. eexists _, _. split; [exact Hl|]. reflexivity.
  - intros [= <- <-]. eexists (_modelFactoryCache w), _. split; [exact Hl|].
    symmetry. apply (set_modelFactoryCache_id (emit _ w)).
Qed.

Lemma modelFor_effects (modelName : string) (w w' : World) (r : Result value) :
  modelFor modelName w = (r, w') →
  ∃ objects c es, Forall (λ e, is_resolution e = true) es
                  ∧ w' = set_heap (heap w ++ objects)
                           (set_modelFactoryCache c (emit es w)).
Proof.
  rewrite modelFor_unfold.
  pose proof (guardWarnings_resolution "modelFor" w) as Hg.
  destruct (guardFails w).
  { intros [= <- <-]. exists [], (_modelFactoryCache w), []. split; [done|].
    apply world_shape_id. }
  cbv zeta.
  assert (Hnil : ∀ c es,
    set_modelFactoryCache c (emit es (emit (guardWarnings "modelFor" w) w))
    = set_heap (heap w ++ [])
        (set_modelFactoryCache c (emit (guardWarnings "modelFor" w ++ es) w))).
  { intros. rewrite emit_emit, app_nil_r. reflexivity. }
  destruct (DEBUG && negb (isPresent modelName)).
  { intros [= <- <-]. exists [], (_modelFactoryCache w), (guardWarnings "modelFor" w).
    split; [done|]. rewrite app_nil_r. by destruct w. }
  destruct (_modelFactoryFor modelName _) as [r1 w1] eqn:Hf.
  apply _modelFactoryFor_effects in Hf as (c & es & Hes & ->).
  assert (Hall : Forall (λ e, is_resolution e = true)
                   (guardWarnings "modelFor" w ++ es))
    by (apply Forall_app; by split).
  destruct r1 as [f|e]; [|intros [= <- <-]; eexists [], c, _; split; [exact Hall|apply Hnil]].
  destruct (readMember _ _ (VRef f) _) as [class|e];
    [|intros [= <- <-]; eexists [], c, _; split; [exact Hall|apply Hnil]].
  destruct (readMember _ _ _ "isModel") as [isModel|e];
    [|intros [= <- <-]; eexists [], c, _; split; [exact Hall|apply Hnil]].
  destruct (truthy isModel); intros [= <- <-].
  - eexists [], c, _. split; [exact Hall|apply Hnil].
  - eexists [OShim modelName], c, _. split; [exact Hall|]. simpl.
    by rewrite emit_emit.
Qed.

(** Copying entries into the object at the end of the heap never fails and
    rewrites that one object. *)
Lemma forEachEntry_copy (h : list object) (entries : list (string * value))
    (props : gmap string value) (w : World) :
  heap w = (h ++ [OPlain props])%list →
  forEachEntry (λ meta name, setProperty (length h) name meta) entries w =
    (Ok tt, set_heap (h ++ [OPlain (foldl (λ q e, <[e.1 := e.2]> q) props entries)]) w).
Proof.
  revert props w. induction entries as [|[name meta] rest IH]; intros props w Hh.
  - simpl. unfold mret, M_ret. by rewrite <- Hh, set_heap_id.
  - simpl. unfold mbind, M_bind, setProperty.
    rewrite Hh, lookup_app_r, Nat.sub_diag by done. simpl.
    rewrite insert_app_r_alt, Nat.sub_diag by done. simpl.
    rewrite (IH (<[name := meta]> props)) by done. reflexivity.
Qed.

Lemma _attributesDefinitionFor_effects (modelName : string) (w w' : World)
    (r : Result value) :
  CUSTOM_MODEL_CLASS = false →
  _attributesDefinitionFor modelName w = (r, w') →
  ∃ objects c es,
    Forall (λ e, is_resolution e = true) es
    ∧ let w0 := set_heap (heap w ++ objects) (set_modelFactoryCache c (emit es w)) in
      w' = w0
      ∨ ∃ a, r = Ok (VRef a)
             ∧ jsIndex (_attributesDefCache w) modelName = VUndefined
             ∧ w' = set_attributesDefCache
                      (<[modelName := VRef a]> (_attributesDefCache w)) w0.
Proof.
  intros HC H. unfold _attributesDefinitionFor in H. rewrite HC in H.
  unfold mbind at 1, M_bind at 1, getWorld in H.
  destruct (is_undefined (jsIndex (_attributesDefCache w) modelName)) eqn:Hu.
  2:{ injection H as <- <-. exists [], (_modelFactoryCache w), [].
      split; [done|]. left. apply world_shape_id. }
  assert (Hmiss : jsIndex (_attributesDefCache w) modelName = VUndefined)
    by (by destruct (jsIndex _ _)).
  unfold mbind at 1, M_bind at 1 in H.
  destruct (modelFor modelName w) as [[modelClass|e] w0] eqn:Hm.
  2:{ injection H as <- <-.
      apply modelFor_effects in Hm as (objects & c & es & Hes & ->).
      exists objects, c, es. split; [done|]. by left. }
  apply modelFor_effects in Hm as (objects & c & es & Hes & ->).
  unfold mbind at 1, M_bind at 1, getMember, getMemberWith in H.
  destruct (readMember _ _ modelClass "attributes") as [attributeMap|e].
  2:{ injection H as <- <-. exists objects, c, es. split; [done|]. by left. }
  unfold mbind at 1, M_bind at 1, alloc in H.
  unfold mbind at 1, M_bind at 1 in H.
  set (h := (heap w ++ objects)%list) in *.
  set (w1 := set_heap (heap _ ++ [OPlain ∅]) _) in H.
  assert (Hh1 : heap w1 = (h ++ [OPlain ∅])%list) by done.
  assert (Hstuck : ∀ e, (Throw e : Result value, w1) = (r, w') →
    ∃ objects c es,
      Forall (λ e, is_resolution e = true) es
      ∧ let w0 := set_heap (heap w ++ objects) (set_modelFactoryCache c (emit es w)) in
        w' = w0
        ∨ ∃ a, r = Ok (VRef a)
               ∧ jsIndex (_attributesDefCache w) modelName = VUndefined
               ∧ w' = set_attributesDefCache
                        (<[modelName := VRef a]> (_attributesDefCache w)) w0).
  { intros e [= <- <-]. exists (objects ++ [OPlain ∅])%list, c, es.
    split; [done|]. left. subst w1 h. simpl. by rewrite app_assoc. }
  unfold mapForEach in H.
  destruct attributeMap as [| | | | |m|]; munfold; try (by eapply Hstuck).
  destruct (heap w1 !! m) as [[| entries | | |]|]; try (by eapply Hstuck).
  replace (length (heap (set_heap h (set_modelFactoryCache c (emit es w)))))
    with (length h) in H by done.
  rewrite (forEachEntry_copy h entries ∅ w1 Hh1) in H.
  injection H as <- <-.
  eexists (objects ++ [OPlain _])%list, c, es. split; [done|]. right.
  exists (length h). split; [done|]. split; [done|].
  subst w1 h. simpl. by rewrite app_assoc.
Qed.

Lemma _relationshipsDefinitionFor_effects (modelName : string) (w w' : World)
    (r : Result value) :
  CUSTOM_MODEL_CLASS = false →
  _relationshipsDefinitionFor modelName w = (r, w') →
  ∃ objects c es,
    Forall (λ e, is_resolution e = true) es
    ∧ let w0 := set_heap (heap w ++ objects) (set_modelFactoryCache c (emit es w)) in
      w' = w0
      ∨ ∃ v, r = Ok v
             ∧ jsIndex (_relationshipsDefCache w) modelName = VUndefined
             ∧ w' = set_relationshipsDefCache
                      (<[modelName := v]> (_relationshipsDefCache w)) w0.
Proof.
  intros HC H. unfold _relationshipsDefinitionFor in H. rewrite HC in H.
  unfold mbind at 1, M_bind at 1, getWorld in H.
  destruct (is_undefined (jsIndex (_relationshipsDefCache w) modelName)) eqn:Hu.
  2:{ injection H as <- <-. exists [], (_modelFactoryCache w), [].
      split; [done|]. left. apply world_shape_id. }
  assert (Hmiss : jsIndex (_relationshipsDefCache w) modelName = VUndefined)
    by (by destruct (jsIndex _ _)).
  unfold mbind at 1, M_bind at 1 in H.
  destruct (modelFor modelName w) as [[modelClass|e] w0] eqn:Hm.
  2:{ injection H as <- <-.
      apply modelFor_effects in Hm as (objects & c & es & Hes & ->).
      exists objects, c, es. split; [done|]. by left. }
  apply modelFor_effects in Hm as (objects & c & es & Hes & ->).
  unfold mbind at 1, M_bind at 1, getMember, getMemberWith in H.
  destruct (readMember _ _ modelClass "relationshipsObject") as [ro|e].
  2:{ injection H as <- <-. exists objects, c, es. split; [done|]. by left. }
  munfold. injection H as <- <-.
  exists objects, c, es. split; [done|]. right. by eexists.
Qed.

(** ** What the legacy metadata queries keep *)

(** X1.  In legacy mode a metadata query that throws (unknown type, blank
    name, guard failure, a class without an attribute map) stores nothing:
    both metadata caches are as they were, so the failure is not
    remembered. *)
Theorem metadata_failure_not_cached (modelName : string) (w w' : World) (e : error) :
  CUSTOM_MODEL_CLASS = false →
  _attributesDefinitionFor modelName w = (Throw e, w')
  ∨ _relationshipsDefinitionFor modelName w = (Throw e, w') →
  _attributesDefCache w' = _attributesDefCache w
  ∧ _relationshipsDefCache w' = _relationshipsDefCache w.
Proof.
  intros HC [H|H].
  - apply (_attributesDefinitionFor_effects _ _ _ _ HC) in H
      as (objects & c & es & _ & [->|(a & [=] & _)]). done.
  - apply (_relationshipsDefinitionFor_effects _ _ _ _ HC) in H
      as (objects & c & es & _ & [->|(a & [=] & _)]). done.
Qed.

(** X2.  In legacy mode a metadata query, whatever its outcome, leaves
    every entry already present in either metadata cache in place: an
    entry is written once, under a name that had none, and is never
    replaced or removed. *)
Theorem metadata_entries_kept (modelName : string) (w w' : World) (r : Result value) :
  CUSTOM_MODEL_CLASS = false →
  _attributesDefinitionFor modelName w = (r, w')
  ∨ _relationshipsDefinitionFor modelName w = (r, w') →
  (∀ k v, _attributesDefCache w !! k = Some v → v ≠ VUndefined →
          _attributesDefCache w' !! k = Some v)
  ∧ (∀ k v, _relationshipsDefCache w !! k = Some v → v ≠ VUndefined →
            _relationshipsDefCache w' !! k = Some v).
Proof.
  assert (Hkeep : ∀ (cache : gmap string value) name x k v,
            jsIndex cache name = VUndefined →
            cache !! k = Some v → v ≠ VUndefined →
            <[name := x]> cache !! k = Some v).
  { intros cache name x k v Hmiss Hk Hv.
    destruct (decide (name = k)) as [->|Hne]; [|by rewrite lookup_insert_ne].
    unfold jsIndex in Hmiss. rewrite Hk in Hmiss. simpl in Hmiss. congruence. }
  intros HC [H|H].
  - apply (_attributesDefinitionFor_effects _ _ _ _ HC) in H
      as (objects & c & es & _ & [->|(a & _ & Hmiss & ->)]); [done|].
    split; [|done]. intros k v. simpl. by apply Hkeep.
  - apply (_relationshipsDefinitionFor_effects _ _ _ _ HC) in H
      as (objects & c & es & _ & [->|(a & _ & Hmiss & ->)]); [done|].
    split; [done|]. intros k v. simpl. by apply Hkeep.
Qed.

(** ** The attribute mapping is the class's attribute map *)

Lemma foldl_insert_lookup (entries : list (string * value))
    (props : gmap string value) (k : string) :
  NoDup entries.*1 →
  foldl (λ q e, <[e.1 := e.2]> q) props entries !! k =
    if decide (k ∈ entries.*1) then Some (entriesGet entries k) else props !! k.
Proof.
  revert props. induction entries as [|[k0 v0] rest IH]; intros props Hnd.
  - simpl. destruct (decide (k ∈ [])) as [Hin|]; [|done].
    by apply elem_of_nil in Hin.
  - rewrite fmap_cons in Hnd |- *. cbn [foldl entriesGet fst snd] in *.
    apply NoDup_cons in Hnd as [Hk0 Hnd]. rewrite IH by done.
    destruct (decide (k ∈ rest.*1)) as [Hin|Hnin];
      destruct (decide (k ∈ k0 :: rest.*1)) as [Hin'|Hnin'];
      destruct (String.eqb_spec k0 k) as [->|Hne]; try done;
      try (exfalso; apply Hnin';
           first [apply list_elem_of_here | by apply list_elem_of_further]);
      try (by rewrite lookup_insert_eq);
      try (by rewrite lookup_insert_ne).
    apply elem_of_cons in Hin' as [?|?]; congruence.
Qed.

Lemma entriesGet_absent (entries : list (string * value)) (k : string) :
  k ∉ entries.*1 → entriesGet entries k = VUndefined.
Proof.
  induction entries as [|[k0 v0] rest IH]; [done|]. simpl.
  intros Hk. apply not_elem_of_cons in Hk as [Hne Hk].
  destruct (String.eqb_spec k0 k); [congruence|]. by apply IH.
Qed.

Lemma objectOfEntries_get (entries : list (string * value)) (k : string) :
  NoDup entries.*1 →
  jsIndex (objectOfEntries entries) k = entriesGet entries k.
Proof.
  intros Hnd. unfold jsIndex, objectOfEntries.
  rewrite foldl_insert_lookup by done.
  destruct (decide (k ∈ entries.*1)); [done|].
  rewrite lookup_empty. simpl. by rewrite entriesGet_absent.
Qed.

(** X4.  In legacy mode, for a name not yet cached whose class answers
    [attributes] with a map (keys pairwise distinct, as in a [Map]), the
    query succeeds and returns a new object at the end of the heap whose
    own properties are the map's entries: reading any key off the result
    gives what [get] gives on the map, undefined for a key the map does
    not have. *)
Theorem attributes_copy_class_map (modelName : string) (w w0 : World)
    (modelClass : value) (m : loc) (entries : list (string * value)) :
  CUSTOM_MODEL_CLASS = false →
  jsIndex (_attributesDefCache w) modelName = VUndefined →
  modelFor modelName w = (Ok modelClass, w0) →
  readMember shimGet (heap w0) modelClass "attributes" = Ok (VRef m) →
  heap w0 !! m = Some (OMap entries) →
  NoDup entries.*1 →
  ∃ w1, _attributesDefinitionFor modelName w = (Ok (VRef (length (heap w0))), w1)
        ∧ heap w1 = (heap w0 ++ [OPlain (objectOfEntries entries)])%list
        ∧ ∀ k, readMember shimGet (heap w1) (VRef (length (heap w0))) k
               = readMapGet (heap w1) (VRef m) k
               ∧ readMapGet (heap w1) (VRef m) k = Ok (entriesGet entries k).
Proof.
  intros HC Hmiss Hm Ha Hmap Hnd.
  eexists. split.
  { unfold _attributesDefinitionFor. rewrite HC.
    unfold mbind at 1, M_bind at 1, getWorld. rewrite Hmiss. simpl.
    unfold mbind at 1, M_bind at 1. rewrite Hm.
    unfold mbind at 1, M_bind at 1, getMember, getMemberWith. rewrite Ha.
    unfold mbind at 1, M_bind at 1, alloc.
    unfold mbind at 1, M_bind at 1, mapForEach.
    unfold mbind at 1, M_bind at 1, getWorld.
    change (heap (set_heap (heap w0 ++ [OPlain ∅]) w0))
      with (heap w0 ++ [OPlain ∅])%list.
    rewrite (lookup_app_l_Some _ _ _ _ Hmap).
    rewrite (forEachEntry_copy (heap w0) entries ∅) by done.
    munfold. reflexivity. }
  split; [done|].
  intros k. simpl heap. unfold readMember, readMapGet.
  rewrite (lookup_app_l_Some _ _ _ _ Hmap).
  rewrite lookup_app_r, Nat.sub_diag by done. simpl.
  by rewrite objectOfEntries_get.
Qed.

(** ** [modelFor] on a model class *)

(** X5.  When a successful [modelFor] allocated nothing (the type is a
    model class, not in need of a stand-in), calling it again with the
    same name returns the same class and adds only the guards' deprecation
    warnings to the world: no lookup, no allocation, no cache write. *)
Theorem modelFor_model_class_stable (modelName : string) (w w1 : World) (v : value) :
  modelFor modelName w = (Ok v, w1) →
  heap w1 = heap w →
  ∃ ws, modelFor modelName w1 = (Ok v, emit ws w1)
        ∧ Forall (λ e, is_deprecation e = true) ws.
Proof.
  intros H Hheap. apply modelFor_ok in H
    as (f & es & class & isModel & Hc & Hm & -> & -> & Hg & Hp & _).
  destruct (truthy isModel) eqn:Ht.
  2:{ simpl in Hheap. apply (f_equal length) in Hheap.
      rewrite length_app in Hheap. simpl in Hheap. lia. }
  set (w1 := resolved _ _ _ _).
  exists (guardWarnings "modelFor" w1 ++ guardWarnings "_modelFactoryFor" w1)%list.
  split.
  - rewrite modelFor_unfold.
    replace (guardFails w1) with false by (by rewrite <- Hg).
    cbv zeta. rewrite Hp, _modelFactoryFor_unfold.
    replace (guardFails (emit _ w1)) with false by (by rewrite <- Hg).
    cbv zeta. rewrite Hp.
    replace (_modelFactoryCache (emit _ w1) !! normalizeModelName modelName)
      with (Some f) by (symmetry; apply lookup_insert_eq).
    rewrite emit_emit.
    replace (heap (emit _ w1)) with (heap w) by done.
    rewrite Hc, Hm, Ht. reflexivity.
  - apply Forall_app. split; apply guardWarnings_deprecations.
Qed.

(** ** Instantiation: all or nothing, one subscription *)

(** X6.  A failed [instantiateRecord] (no current state to read, or no
    factory for the type) has created nothing and subscribed nothing: the
    heap is as it was and the trace has gained only warnings and
    environment lookups. *)
Theorem instantiateRecord_failure_creates_nothing
    (identifier : StableRecordIdentifier) (createRecordArgs : gmap string value)
    (notificationManager : value) (w w' : World) (e : error) :
  instantiateRecord identifier createRecordArgs notificationManager w
    = (Throw e, w') →
  heap w' = heap w
  ∧ _attributesDefCache w' = _attributesDefCache w
  ∧ _relationshipsDefCache w' = _relationshipsDefCache w
  ∧ ∃ es, trace w' = (trace w ++ es)%list
          ∧ Forall (λ e, is_resolution e = true) es.
Proof.
  intros H. unfold instantiateRecord in H.
  unfold mbind at 1, M_bind at 1, getWorld in H.
  unfold mbind at 1, M_bind at 1, getMember, getMemberWith in H.
  destruct (readMember _ _ _ "currentState") as [currentState|e0].
  2:{ injection H as <- <-. do 3 (split; [done|]). exists [].
      by rewrite app_nil_r. }
  unfold mbind at 1, M_bind at 1 in H.
  destruct (_modelFactoryFor (type identifier) w) as [[factory|e0] w0] eqn:Hf.
  { unfold factoryCreate, subscribe, alloc in H. munfold. discriminate. }
  injection H as <- <-.
  apply _modelFactoryFor_effects in Hf as (c & es & Hes & ->).
  do 3 (split; [done|]). by exists es.
Qed.

(** X7.  A successful [instantiateRecord] extends the trace by the
    warnings and lookups of the factory resolution, then one creation and,
    after it, one subscription, both for the record it returns, the
    subscription with the hub and the identifier it was given. *)
Theorem instantiateRecord_subscribes_once
    (identifier : StableRecordIdentifier) (createRecordArgs : gmap string value)
    (notificationManager : value) (w w1 : World) (record : loc) :
  instantiateRecord identifier createRecordArgs notificationManager w
    = (Ok record, w1) →
  ∃ factory es,
    trace w1 = (trace w ++ es ++ [Created factory record;
                                  Subscribed notificationManager identifier record])%list
    ∧ Forall (λ e, is_resolution e = true) es.
Proof.
  intros H. unfold instantiateRecord in H.
  unfold mbind at 1, M_bind at 1, getWorld in H.
  unfold mbind at 1, M_bind at 1, getMember, getMemberWith in H.
  destruct (readMember _ _ _ "currentState") as [currentState|e0]; [|done].
  unfold mbind at 1, M_bind at 1 in H.
  destruct (_modelFactoryFor (type identifier) w) as [[factory|e0] w0] eqn:Hf; [|done].
  apply _modelFactoryFor_effects in Hf as (c & es & Hes & ->).
  unfold factoryCreate, subscribe, alloc in H. munfold. simpl in H.
  injection H as <- <-. exists factory, es. split; [|done].
  simpl. by rewrite <- !app_assoc.
Qed.

(** ** The existence probe *)

Lemma _hasModelFor_unfold (modelName : string) (w : World) :
  CUSTOM_MODEL_CLASS = false →
  _hasModelFor modelName w =
    if probeFails w
    then (Throw (AssertionError (destroyedStoreMessage "_hasModelFor")), w)
    else
      let es := probeWarnings "_hasModelFor" w in
      if DEBUG && negb (isPresent modelName)
      then (Throw (AssertionError
              "You need to pass a model name to the store's hasModelFor method"),
            emit es w)
      else
        let name := normalizeModelName modelName in
        match _modelFactoryCache w !! name with
        | Some factory => (Ok (VBool true), emit es w)
        | None =>
            match registry w !! name with
            | Some factory =>
                (Ok (VBool true), resolved name factory (es ++ [FactoryLookup name]) w)
            | None => (Ok (VBool false), emit (es ++ [FactoryLookup name]) w)
            end
        end.
Proof.
  intros HC. unfold _hasModelFor. rewrite HC.
  unfold mbind at 1, M_bind at 1. rewrite whenDebug_destroying.
  destruct (probeFails w); [reflexivity|].
  unfold assert, getModelFactory, lookupFactory, resolved. cbv zeta.
  destruct (DEBUG && negb (isPresent modelName)); munfold; simpl; [reflexivity|].
  destruct (_modelFactoryCache w !! normalizeModelName modelName); [reflexivity|].
  simpl. rewrite !emit_emit.
  destruct (registry w !! normalizeModelName modelName); reflexivity.
Qed.

(** X8.  In legacy mode, on a store that is neither destroying nor
    destroyed and for a present name, [_hasModelFor] answers true exactly
    when [_modelFactoryFor] returns a handle and false exactly when it
    throws, which it then does with the not-found error; either way the
    probe leaves the world as the resolution would, and it does not
    throw. *)
Theorem hasModelFor_agrees_with_resolution (modelName : string) (w : World) :
  CUSTOM_MODEL_CLASS = false →
  isDestroying w = false →
  isDestroyed w = false →
  (DEBUG = true → isPresent modelName = true) →
  (∀ f w', _modelFactoryFor modelName w = (Ok f, w') →
           _hasModelFor modelName w = (Ok (VBool true), w'))
  ∧ (∀ e w', _modelFactoryFor modelName w = (Throw e, w') →
             e = EmberError ("No model was found for '" +:+
                             normalizeModelName modelName +:+ "'")
             ∧ _hasModelFor modelName w = (Ok (VBool false), w')).
Proof.
  intros HC Hdg Hdd Hp.
  assert (Hv : DEBUG && negb (isPresent modelName) = false).
  { destruct DEBUG; [|done]. by rewrite Hp. }
  rewrite _modelFactoryFor_unfold, (_hasModelFor_unfold _ _ HC).
  unfold guardFails, probeFails, guardWarnings, probeWarnings.
  rewrite Hdg, Hdd. simpl. rewrite !andb_false_r. cbv zeta. rewrite Hv.
  destruct (_modelFactoryCache w !! _); [by split; intros ? ? [= <- <-]|].
  destruct (registry w !! _); by split; intros ? ? [= <- <-].
Qed.

(** X9.  The probe is guarded more strictly than factory resolution.  In a
    debug build, on a store that is destroying but not yet destroyed,
    [_modelFactoryFor] returns a cached handle and leaves the world
    untouched, while the legacy [_hasModelFor] for the same name fails with
    the lifecycle assertion when the strict flag is set, and otherwise
    answers true after a deprecation warning. *)
Theorem probe_guard_is_stricter (modelName : string) (w : World) (f : loc) :
  DEBUG = true →
  CUSTOM_MODEL_CLASS = false →
  isDestroying w = true →
  isDestroyed w = false →
  isPresent modelName = true →
  _modelFactoryCache w !! normalizeModelName modelName = Some f →
  _modelFactoryFor modelName w = (Ok f, w)
  ∧ _hasModelFor modelName w =
      if truthy (shouldAssertMethodCallsOnDestroyedStore w)
      then (Throw (AssertionError (destroyedStoreMessage "_hasModelFor")), w)
      else (Ok (VBool true),
            emit [Deprecation (destroyedStoreMessage "_hasModelFor")
                    "ember-data:method-calls-on-destroyed-store" "3.8"] w).
Proof.
  intros HD HC Hdg Hdd Hp Hc.
  rewrite _modelFactoryFor_unfold, (_hasModelFor_unfold _ _ HC).
  unfold guardFails, probeFails, guardWarnings, probeWarnings.
  rewrite HD, Hdg, Hdd, Hp, Hc. simpl. rewrite !andb_false_r. simpl.
  rewrite emit_nil. split; [done|].
  by destruct (truthy _).
Qed.

(** ** The schema definition service *)

(** X10.  With the custom model class flag on, [getSchemaDefinitionService]
    never fails and returns a truthy service that is then the store's: a
    service already installed is returned as it is, with the world
    unchanged; otherwise a new one is allocated and installed; and a
    second call returns the same service and changes nothing. *)
Theorem schema_service_created_once (w : World) :
  CUSTOM_MODEL_CLASS = true →
  ∃ service w1,
    getSchemaDefinitionService w = (Ok service, w1)
    ∧ truthy service = true
    ∧ _schemaDefinitionService w1 = service
    ∧ getSchemaDefinitionService w1 = (Ok service, w1)
    ∧ (if truthy (_schemaDefinitionService w)
       then service = _schemaDefinitionService w ∧ w1 = w
       else service = VRef (length (heap w))
            ∧ heap w1 = (heap w ++ [OSchemaService])%list).
Proof.
  intros HC. unfold getSchemaDefinitionService. rewrite HC.
  unfold alloc. munfold.
  destruct (truthy (_schemaDefinitionService w)) eqn:Ht; simpl.
  - exists (_schemaDefinitionService w), w. by rewrite Ht.
  - eexists _, _. split; [reflexivity|]. simpl. done.
Qed.

(** ** Blank names and destroyed stores *)

(** X11.  In a debug build a blank model name is refused before the
    environment is asked: with the guard passed, [modelFor] and, in legacy
    mode for a name not cached, the metadata queries and the single-key
    lookup all throw [modelFor]'s assertion, and [_modelFactoryFor] and
    [instantiateRecord] throw [_modelFactoryFor]'s; the world gains the
    guard's warnings of that one method and nothing else. *)
Theorem blank_name_refused (modelName : string) (w : World) :
  DEBUG = true →
  CUSTOM_MODEL_CLASS = false →
  isPresent modelName = false →
  guardFails w = false →
  let blankModelFor := AssertionError
        "You need to pass a model name to the store's modelFor method" in
  let blankFactoryFor := AssertionError
        "You need to pass a model name to the store's _modelFactoryFor method" in
  let w1 := emit (guardWarnings "modelFor" w) w in
  let w2 := emit (guardWarnings "_modelFactoryFor" w) w in
  modelFor modelName w = (Throw blankModelFor, w1)
  ∧ _modelFactoryFor modelName w = (Throw blankFactoryFor, w2)
  ∧ (jsIndex (_attributesDefCache w) modelName = VUndefined →
     _attributesDefinitionFor modelName w = (Throw blankModelFor, w1))
  ∧ (jsIndex (_relationshipsDefCache w) modelName = VUndefined →
     _relationshipsDefinitionFor modelName w = (Throw blankModelFor, w1))
  ∧ (∀ id key, _relationshipMetaFor modelName id key w = (Throw blankModelFor, w1))
  ∧ (∀ identifier args hub currentState,
       type identifier = modelName →
       readMember shimGet (heap w) (_internalModelForResource w identifier)
         "currentState" = Ok currentState →
       instantiateRecord identifier args hub w = (Throw blankFactoryFor, w2)).
Proof.
  intros HD HC Hp Hg. cbv zeta.
  assert (Hm : modelFor modelName w
               = (Throw (AssertionError
                    "You need to pass a model name to the store's modelFor method"),
                  emit (guardWarnings "modelFor" w) w)).
  { by rewrite modelFor_unfold, Hg, HD, Hp. }
  assert (Hf : _modelFactoryFor modelName w
               = (Throw (AssertionError
                    "You need to pass a model name to the store's _modelFactoryFor method"),
                  emit (guardWarnings "_modelFactoryFor" w) w)).
  { by rewrite _modelFactoryFor_unfold, Hg, HD, Hp. }
  split; [done|]. split; [done|]. split.
  { intros Hmiss. unfold _attributesDefinitionFor. rewrite HC.
    unfold mbind at 1, M_bind at 1, getWorld. rewrite Hmiss. simpl.
    unfold mbind at 1, M_bind at 1. by rewrite Hm. }
  split.
  { intros Hmiss. unfold _relationshipsDefinitionFor. rewrite HC.
    unfold mbind at 1, M_bind at 1, getWorld. rewrite Hmiss. simpl.
    unfold mbind at 1, M_bind at 1. by rewrite Hm. }
  split.
  { intros id key. unfold _relationshipMetaFor. rewrite HC.
    unfold mbind at 1, M_bind at 1. by rewrite Hm. }
  intros identifier args hub currentState Ht Hcs. unfold instantiateRecord.
  unfold mbind at 1, M_bind at 1, getWorld.
  unfold mbind at 1, M_bind at 1, getMember, getMemberWith. rewrite Hcs, Ht.
  unfold mbind at 1, M_bind at 1. by rewrite Hf.
Qed.

(** X12.  In a debug build with the strict flag set, on a destroyed store:
    [modelFor], [_modelFactoryFor] and [_hasModelFor] each fail with the
    lifecycle assertion naming themselves, and leave the world untouched.
    The legacy metadata queries carry no guard of their own: for a name
    not cached they fail with the assertion naming [modelFor], as does the
    legacy single-key lookup; for a cached name they still return the
    cached value. *)
Theorem destroyed_store_in_strict_mode (modelName : string) (w : World) :
  guardFails w = true →
  CUSTOM_MODEL_CLASS = false →
  let refused method := AssertionError (destroyedStoreMessage method) in
  modelFor modelName w = (Throw (refused "modelFor"), w)
  ∧ _modelFactoryFor modelName w = (Throw (refused "_modelFactoryFor"), w)
  ∧ _hasModelFor modelName w = (Throw (refused "_hasModelFor"), w)
  ∧ (jsIndex (_attributesDefCache w) modelName = VUndefined →
     _attributesDefinitionFor modelName w = (Throw (refused "modelFor"), w))
  ∧ (jsIndex (_relationshipsDefCache w) modelName = VUndefined →
     _relationshipsDefinitionFor modelName w = (Throw (refused "modelFor"), w))
  ∧ (∀ id key, _relationshipMetaFor modelName id key w
               = (Throw (refused "modelFor"), w))
  ∧ (∀ v, _attributesDefCache w !! modelName = Some v → v ≠ VUndefined →
          _attributesDefinitionFor modelName w = (Ok v, w))
  ∧ (∀ v, _relationshipsDefCache w !! modelName = Some v → v ≠ VUndefined →
          _relationshipsDefinitionFor modelName w = (Ok v, w)).
Proof.
  intros Hg HC. cbv zeta.
  assert (Hm : modelFor modelName w
               = (Throw (AssertionError (destroyedStoreMessage "modelFor")), w))
    by (by rewrite modelFor_unfold, Hg).
  assert (Hprobe : probeFails w = true).
  { unfold guardFails in Hg. unfold probeFails.
    apply andb_true_iff in Hg as [-> ->]. by rewrite orb_true_r. }
  split; [done|].
  split; [by rewrite _modelFactoryFor_unfold, Hg|].
  split; [by rewrite (_hasModelFor_unfold _ _ HC), Hprobe|].
  split.
  { intros Hmiss. unfold _attributesDefinitionFor. rewrite HC.
    unfold mbind at 1, M_bind at 1, getWorld. rewrite Hmiss. simpl.
    unfold mbind at 1, M_bind at 1. by rewrite Hm. }
  split.
  { intros Hmiss. unfold _relationshipsDefinitionFor. rewrite HC.
    unfold mbind at 1, M_bind at 1, getWorld. rewrite Hmiss. simpl.
    unfold mbind at 1, M_bind at 1. by rewrite Hm. }
  split.
  { intros id key. unfold _relationshipMetaFor. rewrite HC.
    unfold mbind at 1, M_bind at 1. by rewrite Hm. }
  split.
  - intros v Hv Hd. apply _attributesDefinitionFor_hit; [done..|]. by destruct v.
  - intros v Hv Hd. apply _relationshipsDefinitionFor_hit; [done..|]. by destruct v.
Qed.

(** ** Edge cases of the single-key lookup *)

(** X13.  In legacy mode, when reading [relationshipsByName] off the
    class gives a map that has no entry under the key, the single-key
    lookup returns undefined (it does not throw), and the world is the one
    that read left. *)
Theorem relationshipMetaFor_missing_key (modelName : string) (id : option string)
    (key : string) (w w1 w2 : World) (modelClass : value) (m : loc)
    (entries : list (string * value)) :
  CUSTOM_MODEL_CLASS = false →
  modelFor modelName w = (Ok modelClass, w1) →
  getRelationshipsByName modelClass w1 = (Ok (VRef m), w2) →
  heap w2 !! m = Some (OMap entries) →
  key ∉ entries.*1 →
  _relationshipMetaFor modelName id key w = (Ok VUndefined, w2).
Proof.
  intros HC Hm Hr Hmap Hk. unfold _relationshipMetaFor. rewrite HC.
  unfold mbind at 1, M_bind at 1. rewrite Hm.
  unfold mbind, M_bind. rewrite Hr.
  unfold mapGet, readMapGet. rewrite Hmap. by rewrite entriesGet_absent.
Qed.

(** X14.  In pluggable mode, when the relationship definitions of a type
    come back null or undefined, the single-key lookup throws a type error
    (it indexes into the result without a check). *)
Theorem relationshipMetaFor_null_definitions (modelName : string)
    (id : option string) (key : string) (w w1 : World) (relationships : value) :
  CUSTOM_MODEL_CLASS = true →
  _relationshipsDefinitionFor modelName w = (Ok relationships, w1) →
  relationships = VNull ∨ relationships = VUndefined →
  ∃ message,
    _relationshipMetaFor modelName id key w = (Throw (TypeError message), w1).
Proof.
  intros HC Hr Hnull. unfold _relationshipMetaFor. rewrite HC.
  unfold mbind, M_bind. rewrite Hr.
  unfold getMember, getMemberWith, readMember.
  destruct Hnull as [-> | ->]; by eexists.
Qed.

(** ** The lifecycle guards (claim C3) *)


End Store.

(** * The theorems at the sample application

    Debug build; the normalizer lowercases, a name is present when it is
    not empty, a stand-in answers undefined for every plain member and
    answers [relationshipsByName] from the store. *)

Local Abbreviation sample_modelFactoryFor :=
  (_modelFactoryFor true Sample.lowercase Sample.nonEmpty).
Local Abbreviation sample_modelFor :=
  (modelFor true Sample.lowercase Sample.nonEmpty Sample.shimMembers).
Local Abbreviation legacy_attributesDefinitionFor :=
  (_attributesDefinitionFor true false Sample.lowercase Sample.nonEmpty
     Sample.shimMembers Sample.providerAttributes).
Local Abbreviation legacy_relationshipsDefinitionFor :=
  (_relationshipsDefinitionFor true false Sample.lowercase Sample.nonEmpty
     Sample.shimMembers Sample.providerRelationships).
(** A stand-in whose [relationshipsByName] answers from the store: it asks
    [_relationshipsDefinitionFor] for its model name and wraps the answer
    in a map. *)
Local Abbreviation storeBackedRelationshipsByName :=
  (λ modelName : string,
     legacy_relationshipsDefinitionFor modelName ≫= mapFromHash).
Local Abbreviation sample_relationshipMetaFor custom :=
  (_relationshipMetaFor true custom Sample.lowercase Sample.nonEmpty
     Sample.shimMembers Sample.providerRelationships
     storeBackedRelationshipsByName).
Local Abbreviation sample_getRelationshipsByName :=
  (getRelationshipsByName Sample.shimMembers storeBackedRelationshipsByName).
Local Abbreviation sample_instantiateRecord :=
  (instantiateRecord true Sample.lowercase Sample.nonEmpty Sample.shimMembers
     Sample.internalModels).

(** Resolving "Person" and then "person" yields the handle at location 0
    both times. *)
Lemma resolveFactory_same_reference_witness :
  let w1 := (sample_modelFactoryFor "Person" Sample.world).2 in
  sample_modelFactoryFor "Person" Sample.world = (Ok 0, w1)
  ∧ ∃ ws, sample_modelFactoryFor "person" w1 = (Ok 0, emit ws w1)
          ∧ Forall (λ e, is_deprecation e = true) ws
          ∧ (isDestroyed Sample.world = false →
             sample_modelFactoryFor "person" w1 = (Ok 0, w1)).
Proof.
  intros w1. split; [vm_compute; reflexivity|].
  apply (resolveFactory_same_reference true Sample.lowercase Sample.nonEmpty
           "Person" "person" Sample.world w1 0);
    [reflexivity | reflexivity | vm_compute; reflexivity].
Defined.

(** No factory is registered for "ghost". *)
Lemma resolveFactory_not_found_witness :
  ∃ w', sample_modelFactoryFor "Ghost" Sample.world
          = (Throw (EmberError "No model was found for 'ghost'"), w')
        ∧ _modelFactoryCache w' = _modelFactoryCache Sample.world
        ∧ _modelFactoryCache w' !! "ghost" = None.
Proof.
  apply (resolveFactory_not_found true Sample.lowercase Sample.nonEmpty
           "Ghost" Sample.world);
    [vm_compute; reflexivity | reflexivity | reflexivity | intros _; reflexivity].
Defined.

(** "widget" is registered but is not a model: the stand-in is allocated at
    location 13. *)
Lemma modelFor_class_or_fresh_shim_witness :
  let w1 := (sample_modelFor "widget" Sample.world).2 in
  sample_modelFor "widget" Sample.world = (Ok (VRef 13), w1)
  ∧ ∃ f class isModel,
      _modelFactoryCache w1 !! Sample.lowercase "widget" = Some f
      ∧ readMember Sample.shimMembers (heap Sample.world) (VRef f) "class" = Ok class
      ∧ readMember Sample.shimMembers (heap Sample.world)
          (if truthy class then class else VRef f) "isModel" = Ok isModel
      ∧ (truthy isModel = true →
           VRef 13 = (if truthy class then class else VRef f)
           ∧ heap w1 = heap Sample.world)
      ∧ (truthy isModel = false →
           VRef 13 = VRef (length (heap Sample.world))
           ∧ heap Sample.world !! length (heap Sample.world) = None
           ∧ heap w1 = (heap Sample.world ++ [OShim "widget"])%list
           ∧ _attributesDefCache w1 = _attributesDefCache Sample.world
           ∧ _relationshipsDefCache w1 = _relationshipsDefCache Sample.world
           ∧ _modelFactoryCache w1
               = <[Sample.lowercase "widget" := f]> (_modelFactoryCache Sample.world)
           ∧ f ≠ length (heap Sample.world)
           ∧ ∃ l2 w2, sample_modelFor "widget" w1 = (Ok (VRef l2), w2)
                      ∧ VRef l2 ≠ VRef 13
                      ∧ heap w2 = (heap w1 ++ [OShim "widget"])%list
                      ∧ heap w2 !! l2 = Some (OShim "widget")).
Proof.
  intros w1. split; [vm_compute; reflexivity|].
  apply (modelFor_class_or_fresh_shim true Sample.lowercase Sample.nonEmpty
           Sample.shimMembers "widget" Sample.world w1 (VRef 13)).
  vm_compute; reflexivity.
Defined.

(** The attributes of "Person": the mapping allocated at location 13. *)
Lemma attributes_memoized_witness :
  let w1 := (legacy_attributesDefinitionFor "Person" Sample.world).2 in
  legacy_attributesDefinitionFor "Person" Sample.world = (Ok (VRef 13), w1)
  ∧ _attributesDefCache w1 !! "Person" = Some (VRef 13)
  ∧ ∀ w2, _attributesDefCache w2 !! "Person" = _attributesDefCache w1 !! "Person" →
          legacy_attributesDefinitionFor "Person" w2 = (Ok (VRef 13), w2).
Proof.
  intros w1. split; [vm_compute; reflexivity|].
  apply (attributes_memoized true false Sample.lowercase Sample.nonEmpty
           Sample.shimMembers Sample.providerAttributes "Person" Sample.world w1
           (VRef 13));
    [reflexivity | vm_compute; reflexivity].
Defined.

(** "tag" is a model that declares no relationships: null, and cached. *)
Lemma relationships_absent_is_cached_witness :
  let w0 := (sample_modelFor "tag" Sample.world).2 in
  let w1 := set_relationshipsDefCache (<["tag" := VNull]> (_relationshipsDefCache w0)) w0 in
  sample_modelFor "tag" Sample.world = (Ok (VRef 11), w0)
  ∧ readMember Sample.shimMembers (heap w0) (VRef 11) "relationshipsObject"
      = Ok VUndefined
  ∧ legacy_relationshipsDefinitionFor "tag" Sample.world = (Ok VNull, w1)
  ∧ VNull ≠ VUndefined
  ∧ (truthy VUndefined = false → VNull = VNull)
  ∧ _relationshipsDefCache w1 !! "tag" = Some VNull
  ∧ ∀ w2, _relationshipsDefCache w2 !! "tag" = Some VNull →
          legacy_relationshipsDefinitionFor "tag" w2 = (Ok VNull, w2).
Proof.
  intros w0 w1.
  split; [vm_compute; reflexivity|]. split; [vm_compute; reflexivity|].
  apply (relationships_absent_is_cached true false Sample.lowercase Sample.nonEmpty
           Sample.shimMembers Sample.providerRelationships "tag" Sample.world w0
           (VRef 11) VUndefined);
    [reflexivity | reflexivity | vm_compute; reflexivity | vm_compute; reflexivity].
Defined.

(** "Person" and "person": one entry per raw name in each metadata cache,
    one handle in the factory cache, two distinct attribute mappings. *)
Lemma metadata_caches_keyed_by_raw_name_witness :
  let a1 := legacy_attributesDefinitionFor "Person" Sample.world in
  let a2 := legacy_attributesDefinitionFor "person" a1.2 in
  let r1 := legacy_relationshipsDefinitionFor "Person" Sample.world in
  let r2 := legacy_relationshipsDefinitionFor "person" r1.2 in
  (VRef 13 ≠ VRef 14
   ∧ _attributesDefCache a2.2
       = <["person" := VRef 14]>
           (<["Person" := VRef 13]> (_attributesDefCache Sample.world))
   ∧ _attributesDefCache a2.2 !! "Person" = Some (VRef 13)
   ∧ _attributesDefCache a2.2 !! "person" = Some (VRef 14)
   ∧ ∃ f, _modelFactoryCache a2.2
            = <[Sample.lowercase "Person" := f]> (_modelFactoryCache Sample.world))
  ∧ (_relationshipsDefCache r2.2
       = <["person" := VRef 8]>
           (<["Person" := VRef 8]> (_relationshipsDefCache Sample.world))
     ∧ _relationshipsDefCache r2.2 !! "Person" = Some (VRef 8)
     ∧ _relationshipsDefCache r2.2 !! "person" = Some (VRef 8)
     ∧ ∃ f, _modelFactoryCache r2.2
              = <[Sample.lowercase "Person" := f]> (_modelFactoryCache Sample.world)).
Proof.
  intros a1 a2 r1 r2.
  destruct (metadata_caches_keyed_by_raw_name true false Sample.lowercase
              Sample.nonEmpty Sample.shimMembers Sample.providerAttributes
              Sample.providerRelationships "Person" "person")
    as [Hattributes Hrelationships];
    [reflexivity | discriminate | reflexivity |].
  split.
  - apply (Hattributes Sample.world a1.2 a2.2 (VRef 13) (VRef 14));
      [reflexivity | reflexivity | vm_compute; reflexivity | vm_compute; reflexivity].
  - apply (Hrelationships Sample.world r1.2 r2.2 (VRef 8) (VRef 8));
      [reflexivity | reflexivity | vm_compute; reflexivity | vm_compute; reflexivity].
Defined.

(** The relationship "pets" of "person", through the provider and through
    the class. *)
Lemma relationshipMetaFor_paths_witness :
  (let (service, w0) :=
     if truthy (_schemaDefinitionService Sample.world)
     then (_schemaDefinitionService Sample.world, Sample.world)
     else (VRef (length (heap Sample.world)),
           set_schemaDefinitionService (VRef (length (heap Sample.world)))
             (set_heap (heap Sample.world ++ [OSchemaService]) Sample.world)) in
   _relationshipsDefinitionFor true true Sample.lowercase Sample.nonEmpty
     Sample.shimMembers Sample.providerRelationships "person" Sample.world
     = Sample.providerRelationships service "person" w0
   ∧ sample_relationshipMetaFor true "person" None "pets" Sample.world =
       match Sample.providerRelationships service "person" w0 with
       | (Ok relationships, w1) =>
           (readMember Sample.shimMembers (heap w1) relationships "pets", w1)
       | (Throw e, w1) => (Throw e, w1)
       end)
  ∧ (sample_relationshipMetaFor false "person" None "pets" Sample.world =
       match sample_modelFor "person" Sample.world with
       | (Ok modelClass, w1) =>
           match sample_getRelationshipsByName modelClass w1 with
           | (Ok relationshipsByName, w2) =>
               (readMapGet (heap w2) relationshipsByName "pets", w2)
           | (Throw e, w2) => (Throw e, w2)
           end
       | (Throw e, w1) => (Throw e, w1)
       end
     ∧ ∀ cache,
         sample_relationshipMetaFor false "person" None "pets"
           (set_relationshipsDefCache cache Sample.world) =
           let (r, w1) :=
             sample_relationshipMetaFor false "person" None "pets" Sample.world in
           (r, set_relationshipsDefCache cache w1))
  ∧ (sample_relationshipMetaFor true "person" None "pets" Sample.world).1 = Ok (VRef 9)
  ∧ (sample_relationshipMetaFor false "person" None "pets" Sample.world).1 = Ok (VRef 9).
Proof.
  split.
  { apply (proj1 (relationshipMetaFor_paths true true Sample.lowercase Sample.nonEmpty
                    Sample.shimMembers Sample.providerRelationships
                    storeBackedRelationshipsByName
                    "person" None "pets" Sample.world)).
    reflexivity. }
  split.
  { destruct (proj2 (relationshipMetaFor_paths true false Sample.lowercase
                       Sample.nonEmpty Sample.shimMembers Sample.providerRelationships
                       storeBackedRelationshipsByName
                       "person" None "pets" Sample.world) eq_refl)
      as [Hlookup Hcache].
    split; [exact Hlookup|]. apply Hcache.
    intros modelClass w1 Hm.
    assert (Hperson : sample_modelFor "person" Sample.world
                      = (Ok (VRef 1), (sample_modelFor "person" Sample.world).2))
      by (vm_compute; reflexivity).
    rewrite Hperson in Hm. injection Hm as <- <-. vm_compute; reflexivity. }
  split; vm_compute; reflexivity.
Defined.

(** C7 as stated fails for a type that needs a stand-in.  "widget" is
    registered but is not a model, so the legacy lookup reads
    [relationshipsByName] off a stand-in, whose getter asks the store: on
    the store with empty caches the lookup answers undefined and leaves
    null in the relationship cache under "widget"; with the object at
    location 8 cached under "widget" it answers that object's "pets". *)
Lemma standin_lookup_reads_relationship_cache :
  let lookup := sample_relationshipMetaFor false "widget" None "pets" in
  let cached := set_relationshipsDefCache {[ "widget" := VRef 8 ]} Sample.world in
  (lookup Sample.world).1 = Ok VUndefined
  ∧ _relationshipsDefCache Sample.world !! "widget" = None
  ∧ _relationshipsDefCache (lookup Sample.world).2 !! "widget" = Some VNull
  ∧ (lookup cached).1 = Ok (VRef 9).
Proof. repeat split; vm_compute; reflexivity. Qed.

(** Instantiating person 1 with caller arguments that set [store] and
    [container]. *)
Lemma instantiateRecord_arguments_witness :
  let identifier := {| type := "Person"; id := Some "1" |} in
  let args : gmap string value := <["container" := VNum 1]> {[ "store" := VNull ]} in
  let w1 := (sample_instantiateRecord identifier args (VRef 0) Sample.world).2 in
  sample_instantiateRecord identifier args (VRef 0) Sample.world = (Ok 13, w1)
  ∧ ∃ currentState factory,
      let literal : gmap string value :=
        <["store" := VStore]>
          (<["_internalModel" := VRef 3]>
             (<["currentState" := currentState]>
                (<["container" := VNull]> ∅))) in
      let merged := args ∪ literal in
      let props := delete "container" merged in
      readMember Sample.shimMembers (heap Sample.world) (VRef 3) "currentState"
        = Ok currentState
      ∧ _modelFactoryCache w1 !! Sample.lowercase "Person" = Some factory
      ∧ 13 = length (heap Sample.world)
      ∧ heap w1 = (heap Sample.world ++ [ORecord factory props (owner Sample.world)])%list
      ∧ Created factory 13 ∈ trace w1
      ∧ literal !! "container" = Some VNull
      ∧ (∀ k v, args !! k = Some v → merged !! k = Some v)
      ∧ (∀ k, args !! k = None → merged !! k = literal !! k)
      ∧ props !! "container" = None
      ∧ ∀ k, k ≠ "container" → props !! k = merged !! k.
Proof.
  intros identifier args w1. split; [vm_compute; reflexivity|].
  apply (instantiateRecord_arguments true Sample.lowercase Sample.nonEmpty
           Sample.shimMembers Sample.internalModels identifier args (VRef 0)
           Sample.world w1 13).
  vm_compute; reflexivity.
Defined.



(** C9 as stated fails for the relationship cache: with "Person" and
    "person", neither cached, both calls succeed and return the same
    reference, the class's [relationshipsObject] at location 8. *)
Lemma relationships_raw_names_share_reference :
  ¬ (∀ (n1 n2 : string) (w w1 w2 : World) (r1 r2 : value),
       n1 ≠ n2 →
       Sample.lowercase n1 = Sample.lowercase n2 →
       jsIndex (_relationshipsDefCache w) n1 = VUndefined →
       jsIndex (_relationshipsDefCache w) n2 = VUndefined →
       legacy_relationshipsDefinitionFor n1 w = (Ok r1, w1) →
       legacy_relationshipsDefinitionFor n2 w1 = (Ok r2, w2) →
       r1 ≠ r2).
Proof.
  intros claim.
  apply (claim "Person" "person" Sample.world
           (legacy_relationshipsDefinitionFor "Person" Sample.world).2
           (legacy_relationshipsDefinitionFor "person"
              (legacy_relationshipsDefinitionFor "Person" Sample.world).2).2
           (VRef 8) (VRef 8));
    [discriminate | reflexivity | reflexivity | reflexivity
    | vm_compute; reflexivity | vm_compute; reflexivity | reflexivity].
Qed.

(** * The further properties at the sample application *)

Local Abbreviation sample_hasModelFor :=
  (_hasModelFor true false Sample.lowercase Sample.nonEmpty
     Sample.providerDoesTypeExist).

(** No factory is registered for "nothing": the attribute query throws and
    the caches stay empty. *)
Lemma metadata_failure_not_cached_witness :
  let w' := (legacy_attributesDefinitionFor "nothing" Sample.world).2 in
  legacy_attributesDefinitionFor "nothing" Sample.world
    = (Throw (EmberError "No model was found for 'nothing'"), w')
  ∧ _attributesDefCache w' = _attributesDefCache Sample.world
  ∧ _relationshipsDefCache w' = _relationshipsDefCache Sample.world.
Proof.
  intros w'. split; [vm_compute; reflexivity|].
  apply (metadata_failure_not_cached true false Sample.lowercase Sample.nonEmpty
           Sample.shimMembers Sample.providerAttributes Sample.providerRelationships
           "nothing" Sample.world w' (EmberError "No model was found for 'nothing'"));
    [reflexivity | left; vm_compute; reflexivity].
Defined.

(** After "Person" was cached, querying "tag" keeps the entry of "Person". *)
Lemma metadata_entries_kept_witness :
  let w1 := (legacy_attributesDefinitionFor "Person" Sample.world).2 in
  let w2 := (legacy_attributesDefinitionFor "tag" w1).2 in
  _attributesDefCache w1 !! "Person" = Some (VRef 13)
  ∧ (∀ k v, _attributesDefCache w1 !! k = Some v → v ≠ VUndefined →
            _attributesDefCache w2 !! k = Some v)
  ∧ (∀ k v, _relationshipsDefCache w1 !! k = Some v → v ≠ VUndefined →
            _relationshipsDefCache w2 !! k = Some v).
Proof.
  intros w1 w2. split; [vm_compute; reflexivity|].
  apply (metadata_entries_kept true false Sample.lowercase Sample.nonEmpty
           Sample.shimMembers Sample.providerAttributes Sample.providerRelationships
           "tag" w1 w2 (Ok (VRef 14)));
    [reflexivity | left; vm_compute; reflexivity].
Defined.

(** The attributes of "Person" are the one entry of its attribute map. *)
Lemma attributes_copy_class_map_witness :
  let w0 := (sample_modelFor "Person" Sample.world).2 in
  let entries := [("name", VRef 5)] in
  ∃ w1, legacy_attributesDefinitionFor "Person" Sample.world
          = (Ok (VRef (length (heap w0))), w1)
        ∧ heap w1 = (heap w0 ++ [OPlain (objectOfEntries entries)])%list
        ∧ ∀ k, readMember Sample.shimMembers (heap w1) (VRef (length (heap w0))) k
               = readMapGet (heap w1) (VRef 2) k
               ∧ readMapGet (heap w1) (VRef 2) k = Ok (entriesGet entries k).
Proof.
  intros w0 entries.
  apply (attributes_copy_class_map true false Sample.lowercase Sample.nonEmpty
           Sample.shimMembers Sample.providerAttributes "Person" Sample.world w0
           (VRef 1) 2 entries);
    [reflexivity | reflexivity | vm_compute; reflexivity | vm_compute; reflexivity
    | vm_compute; reflexivity | apply NoDup_singleton].
Defined.

(** "person" is a model class: the class at location 1, twice. *)
Lemma modelFor_model_class_stable_witness :
  let w1 := (sample_modelFor "person" Sample.world).2 in
  sample_modelFor "person" Sample.world = (Ok (VRef 1), w1)
  ∧ heap w1 = heap Sample.world
  ∧ ∃ ws, sample_modelFor "person" w1 = (Ok (VRef 1), emit ws w1)
          ∧ Forall (λ e, is_deprecation e = true) ws.
Proof.
  intros w1. split; [vm_compute; reflexivity|]. split; [reflexivity|].
  apply (modelFor_model_class_stable true Sample.lowercase Sample.nonEmpty
           Sample.shimMembers "person" Sample.world w1 (VRef 1));
    [vm_compute; reflexivity | reflexivity].
Defined.

(** Instantiating a record of the unregistered type "ghost". *)
Lemma instantiateRecord_failure_creates_nothing_witness :
  let identifier := {| type := "ghost"; id := None |} in
  let w' := (sample_instantiateRecord identifier ∅ (VRef 0) Sample.world).2 in
  sample_instantiateRecord identifier ∅ (VRef 0) Sample.world
    = (Throw (EmberError "No model was found for 'ghost'"), w')
  ∧ heap w' = heap Sample.world
  ∧ _attributesDefCache w' = _attributesDefCache Sample.world
  ∧ _relationshipsDefCache w' = _relationshipsDefCache Sample.world
  ∧ ∃ es, trace w' = (trace Sample.world ++ es)%list
          ∧ Forall (λ e, is_resolution e = true) es.
Proof.
  intros identifier w'. split; [vm_compute; reflexivity|].
  apply (instantiateRecord_failure_creates_nothing true Sample.lowercase
           Sample.nonEmpty Sample.shimMembers Sample.internalModels identifier ∅
           (VRef 0) Sample.world w' (EmberError "No model was found for 'ghost'")).
  vm_compute; reflexivity.
Defined.

(** Instantiating person 1: one creation, one subscription. *)
Lemma instantiateRecord_subscribes_once_witness :
  let identifier := {| type := "person"; id := Some "1" |} in
  let w1 := (sample_instantiateRecord identifier ∅ (VRef 0) Sample.world).2 in
  sample_instantiateRecord identifier ∅ (VRef 0) Sample.world = (Ok 13, w1)
  ∧ ∃ factory es,
      trace w1 = (trace Sample.world ++ es
                  ++ [Created factory 13; Subscribed (VRef 0) identifier 13])%list
      ∧ Forall (λ e, is_resolution e = true) es.
Proof.
  intros identifier w1. split; [vm_compute; reflexivity|].
  apply (instantiateRecord_subscribes_once true Sample.lowercase Sample.nonEmpty
           Sample.shimMembers Sample.internalModels identifier ∅ (VRef 0)
           Sample.world w1 13).
  vm_compute; reflexivity.
Defined.

(** The probe and the resolution of "Person" on the active store. *)
Lemma hasModelFor_agrees_with_resolution_witness :
  (∀ f w', sample_modelFactoryFor "Person" Sample.world = (Ok f, w') →
           sample_hasModelFor "Person" Sample.world = (Ok (VBool true), w'))
  ∧ (∀ e w', sample_modelFactoryFor "Person" Sample.world = (Throw e, w') →
             e = EmberError ("No model was found for '" +:+
                             Sample.lowercase "Person" +:+ "'")
             ∧ sample_hasModelFor "Person" Sample.world = (Ok (VBool false), w')).
Proof.
  apply (hasModelFor_agrees_with_resolution true false Sample.lowercase
           Sample.nonEmpty Sample.providerDoesTypeExist "Person" Sample.world);
    [reflexivity | reflexivity | reflexivity | intros _; reflexivity].
Defined.

(** On the store being torn down, with the strict flag set. *)
Lemma probe_guard_is_stricter_witness :
  sample_modelFactoryFor "person" Sample.destroying = (Ok 0, Sample.destroying)
  ∧ sample_hasModelFor "person" Sample.destroying =
      if truthy (shouldAssertMethodCallsOnDestroyedStore Sample.destroying)
      then (Throw (AssertionError (destroyedStoreMessage "_hasModelFor")),
            Sample.destroying)
      else (Ok (VBool true),
            emit [Deprecation (destroyedStoreMessage "_hasModelFor")
                    "ember-data:method-calls-on-destroyed-store" "3.8"]
              Sample.destroying).
Proof.
  apply (probe_guard_is_stricter true false Sample.lowercase Sample.nonEmpty
           Sample.providerDoesTypeExist "person" Sample.destroying 0);
    [reflexivity | reflexivity | reflexivity | reflexivity | reflexivity
    | vm_compute; reflexivity].
Defined.

(** The first request for the schema service allocates it at location 13. *)
Lemma schema_service_created_once_witness :
  ∃ service w1,
    getSchemaDefinitionService true Sample.world = (Ok service, w1)
    ∧ truthy service = true
    ∧ _schemaDefinitionService w1 = service
    ∧ getSchemaDefinitionService true w1 = (Ok service, w1)
    ∧ (if truthy (_schemaDefinitionService Sample.world)
       then service = _schemaDefinitionService Sample.world ∧ w1 = Sample.world
       else service = VRef (length (heap Sample.world))
            ∧ heap w1 = (heap Sample.world ++ [OSchemaService])%list).
Proof.
  apply (schema_service_created_once true Sample.world). reflexivity.
Defined.

(** The empty name on the active store. *)
Lemma blank_name_refused_witness :
  let blankModelFor := AssertionError
        "You need to pass a model name to the store's modelFor method" in
  let blankFactoryFor := AssertionError
        "You need to pass a model name to the store's _modelFactoryFor method" in
  let w1 := emit (guardWarnings true "modelFor" Sample.world) Sample.world in
  let w2 := emit (guardWarnings true "_modelFactoryFor" Sample.world) Sample.world in
  sample_modelFor "" Sample.world = (Throw blankModelFor, w1)
  ∧ sample_modelFactoryFor "" Sample.world = (Throw blankFactoryFor, w2)
  ∧ (jsIndex (_attributesDefCache Sample.world) "" = VUndefined →
     legacy_attributesDefinitionFor "" Sample.world = (Throw blankModelFor, w1))
  ∧ (jsIndex (_relationshipsDefCache Sample.world) "" = VUndefined →
     legacy_relationshipsDefinitionFor "" Sample.world = (Throw blankModelFor, w1))
  ∧ (∀ id key, sample_relationshipMetaFor false "" id key Sample.world
               = (Throw blankModelFor, w1))
  ∧ (∀ identifier args hub currentState,
       type identifier = "" →
       readMember Sample.shimMembers (heap Sample.world)
         (Sample.internalModels Sample.world identifier) "currentState"
         = Ok currentState →
       sample_instantiateRecord identifier args hub Sample.world
         = (Throw blankFactoryFor, w2)).
Proof.
  apply (blank_name_refused true false Sample.lowercase Sample.nonEmpty
           Sample.shimMembers Sample.internalModels Sample.providerAttributes
           Sample.providerRelationships storeBackedRelationshipsByName
           "" Sample.world);
    reflexivity.
Defined.

(** The destroyed store with the strict flag set. *)
Lemma destroyed_store_in_strict_mode_witness :
  let refused method := AssertionError (destroyedStoreMessage method) in
  let w := Sample.destroyedStrict in
  sample_modelFor "person" w = (Throw (refused "modelFor"), w)
  ∧ sample_modelFactoryFor "person" w = (Throw (refused "_modelFactoryFor"), w)
  ∧ sample_hasModelFor "person" w = (Throw (refused "_hasModelFor"), w)
  ∧ (jsIndex (_attributesDefCache w) "person" = VUndefined →
     legacy_attributesDefinitionFor "person" w = (Throw (refused "modelFor"), w))
  ∧ (jsIndex (_relationshipsDefCache w) "person" = VUndefined →
     legacy_relationshipsDefinitionFor "person" w = (Throw (refused "modelFor"), w))
  ∧ (∀ id key, sample_relationshipMetaFor false "person" id key w
               = (Throw (refused "modelFor"), w))
  ∧ (∀ v, _attributesDefCache w !! "person" = Some v → v ≠ VUndefined →
          legacy_attributesDefinitionFor "person" w = (Ok v, w))
  ∧ (∀ v, _relationshipsDefCache w !! "person" = Some v → v ≠ VUndefined →
          legacy_relationshipsDefinitionFor "person" w = (Ok v, w)).
Proof.
  apply (destroyed_store_in_strict_mode true false Sample.lowercase Sample.nonEmpty
           Sample.shimMembers Sample.providerAttributes Sample.providerRelationships
           storeBackedRelationshipsByName
           Sample.providerDoesTypeExist "person" Sample.destroyedStrict);
    reflexivity.
Defined.

(** "person" has no relationship named "owner". *)
Lemma relationshipMetaFor_missing_key_witness :
  let w1 := (sample_modelFor "person" Sample.world).2 in
  sample_modelFor "person" Sample.world = (Ok (VRef 1), w1)
  ∧ sample_relationshipMetaFor false "person" None "owner" Sample.world
    = (Ok VUndefined, w1).
Proof.
  intros w1. split; [vm_compute; reflexivity|].
  apply (relationshipMetaFor_missing_key true false Sample.lowercase Sample.nonEmpty
           Sample.shimMembers Sample.providerRelationships
           storeBackedRelationshipsByName "person" None "owner"
           Sample.world w1 w1 (VRef 1) 4 [("pets", VRef 9)]);
    [reflexivity | vm_compute; reflexivity | vm_compute; reflexivity
    | vm_compute; reflexivity | ].
  intros Hin. apply list_elem_of_singleton in Hin. discriminate.
Defined.

(** A provider that answers null for the relationships of every type. *)
Lemma relationshipMetaFor_null_definitions_witness :
  let w1 := (_relationshipsDefinitionFor true true Sample.lowercase Sample.nonEmpty
               Sample.shimMembers Sample.providerWithoutRelationships
               "person" Sample.world).2 in
  ∃ message,
    _relationshipMetaFor true true Sample.lowercase Sample.nonEmpty
      Sample.shimMembers Sample.providerWithoutRelationships
      storeBackedRelationshipsByName "person" None "pets" Sample.world
    = (Throw (TypeError message), w1).
Proof.
  intros w1.
  apply (relationshipMetaFor_null_definitions true true Sample.lowercase
           Sample.nonEmpty Sample.shimMembers Sample.providerWithoutRelationships
           storeBackedRelationshipsByName
           "person" None "pets" Sample.world w1 VNull);
    [reflexivity | vm_compute; reflexivity | by left].
Defined.
